(** * server_wamp.protocol: the WAMP session dispatcher

    A shallow embedding of [src/server_wamp/protocol.py].  Python values are
    an inductive type, the transport is a log of the calls made on it, and a
    method of [WAMPProtocol] is a computation that threads this log and may
    end in a raised exception. *)

From Stdlib Require Import ZArith List String Bool Lia.
From Stdlib Require Import Floats.SpecFloat.
Import ListNotations.

Local Open Scope string_scope.
Local Open Scope Z_scope.

Set Warnings "-register-all,-notation-for-abbreviation".

(** ** Python values *)

(** The values the dispatcher handles: what [json.loads] returns ([None],
    [bool], [int], [float], [str], [list], [dict] with [str] keys), the tuples
    the code builds for outgoing envelopes, awaitable objects, and any other
    object (named by its class), which [json.dumps] cannot encode. *)
Inductive pyval : Type :=
| PNone
| PBool (b : bool)
| PInt (z : Z)
| PFloat (f : spec_float)
| PStr (s : string)
| PList (items : list pyval)
| PTuple (items : list pyval)
| PDict (entries : list (string * pyval))
| PAwaitable
| PObject (cls : string).

(** A raised exception: its class name and [str(e)].  [Exc] is an instance of
    [Exception]; [BaseExc] derives from [BaseException] only
    ([KeyboardInterrupt], [SystemExit], ...), which [except Exception] lets
    through. *)
Inductive pyexc : Type :=
| Exc (cls : string) (msg : string)
| BaseExc (cls : string) (msg : string).

Definition str_of_exc (e : pyexc) : string :=
  match e with
  | Exc _ msg => msg
  | BaseExc _ msg => msg
  end.

(** How a call ends. *)
Inductive outcome (A : Type) : Type :=
| Return (a : A)
| Throw (e : pyexc).

Arguments Return {A} a.
Arguments Throw {A} e.

(** ** Numbers and comparisons *)

(** The integer a float is exactly equal to, when there is one. *)
Definition float_exact_Z (f : spec_float) : option Z :=
  match f with
  | S754_zero _ => Some 0
  | S754_infinity _ => None
  | S754_nan => None
  | S754_finite s m e =>
      let sign := if s then (-1) else 1 in
      if 0 <=? e then Some (sign * (Z.pos m * 2 ^ e))
      else if Z.pos m mod 2 ^ (- e) =? 0
           then Some (sign * (Z.pos m / 2 ^ (- e)))
           else None
  end.

(** The integer a value compares equal to under Python's [==]: [True == 1],
    [False == 0], [48.0 == 48]; a value that is not a number equals none. *)
Definition as_exact_int (v : pyval) : option Z :=
  match v with
  | PBool b => Some (if b then 1 else 0)
  | PInt z => Some z
  | PFloat f => float_exact_Z f
  | _ => None
  end.

(** [v == code] for a member [code] of the [IntEnum]. *)
Definition py_eq_int (v : pyval) (code : Z) : bool :=
  match as_exact_int v with
  | Some z => z =? code
  | None => false
  end.

(** [isinstance(v, int)]: [bool] is a subclass of [int]. *)
Definition isinstance_int (v : pyval) : bool :=
  match v with
  | PInt _ | PBool _ => true
  | _ => false
  end.

(** [isinstance(v, str)]. *)
Definition isinstance_str (v : pyval) : bool :=
  match v with
  | PStr _ => true
  | _ => false
  end.

(** Truth value of [v] in an [if]: empty containers, zero, the empty string,
    [False] and [None] are false. *)
Definition truthy (v : pyval) : bool :=
  match v with
  | PNone => false
  | PBool b => b
  | PInt z => negb (z =? 0)
  | PFloat f => match f with S754_zero _ => false | _ => true end
  | PStr s => negb (String.eqb s "")
  | PList l => match l with [] => false | _ => true end
  | PTuple l => match l with [] => false | _ => true end
  | PDict d => match d with [] => false | _ => true end
  | PAwaitable => true
  | PObject _ => true
  end.

(** [type(v).__name__], as it appears in error messages. *)
Definition type_name (v : pyval) : string :=
  match v with
  | PNone => "NoneType"
  | PBool _ => "bool"
  | PInt _ => "int"
  | PFloat _ => "float"
  | PStr _ => "str"
  | PList _ => "list"
  | PTuple _ => "tuple"
  | PDict _ => "dict"
  | PAwaitable => "Future"
  | PObject cls => cls
  end.

(** Whether [json.dumps] encodes [v]; on any other value it raises
    [TypeError]. *)
Fixpoint json_encodable (v : pyval) : bool :=
  match v with
  | PNone | PBool _ | PInt _ | PFloat _ | PStr _ => true
  | PList l => forallb json_encodable l
  | PTuple l => forallb json_encodable l
  | PDict d => forallb (fun kv => json_encodable (snd kv)) d
  | PAwaitable => false
  | PObject _ => false
  end.

(** The first object [json.dumps] refuses, in encoding order; its class is
    named in the [TypeError]. *)
Fixpoint first_unencodable (v : pyval) : option pyval :=
  let fix among (l : list pyval) : option pyval :=
    match l with
    | [] => None
    | x :: r => match first_unencodable x with
                | Some bad => Some bad
                | None => among r
                end
    end in
  let fix among_entries (d : list (string * pyval)) : option pyval :=
    match d with
    | [] => None
    | (_, x) :: r => match first_unencodable x with
                     | Some bad => Some bad
                     | None => among_entries r
                     end
    end in
  match v with
  | PNone | PBool _ | PInt _ | PFloat _ | PStr _ => None
  | PList l => among l
  | PTuple l => among l
  | PDict d => among_entries d
  | PAwaitable => Some v
  | PObject _ => Some v
  end.

Definition not_serializable (v : pyval) : pyexc :=
  Exc "TypeError"
    ("Object of type "
     ++ match first_unencodable v with
        | Some bad => type_name bad
        | None => type_name v
        end
     ++ " is not JSON serializable").

(** ** The transport and the effects of a method *)

(** The text [json.dumps v], kept as the value it encodes. *)
Inductive json_text : Type :=
| Dumps (v : pyval).

(** Modelled from the spec: the transport object is passed to the constructor
    and its class is not part of [protocol.py].  The spec gives it two
    capabilities, sending a text and closing; here each call is recorded in
    order, never fails, and returns an awaitable, as the code that awaits
    [schedule_msg] and [close] expects. *)
Inductive transport_call : Type :=
| ScheduleMsg (text : json_text)
| Close.

Definition transport_log : Type := list transport_call.

(** A computation over the transport log that returns or raises.  A raised
    exception keeps the calls made before it. *)
Definition M (A : Type) : Type := transport_log -> outcome A * transport_log.

Definition ret {A} (a : A) : M A := fun log => (Return a, log).

Definition raise {A} (e : pyexc) : M A := fun log => (Throw e, log).

Definition bind {A B} (c : M A) (k : A -> M B) : M B :=
  fun log =>
    match c log with
    | (Return a, log') => k a log'
    | (Throw e, log') => (Throw e, log')
    end.

(** The outcome of a call into a collaborator. *)
Definition call {A} (o : outcome A) : M A :=
  match o with
  | Return a => ret a
  | Throw e => raise e
  end.

(** [try: body / except Exception as e: handler e]. *)
Definition try_except {A} (body : M A) (handler : pyexc -> M A) : M A :=
  fun log =>
    match body log with
    | (Throw (Exc cls msg), log') => handler (Exc cls msg) log'
    | r => r
    end.

Declare Scope py_scope.
Delimit Scope py_scope with py.
Notation "x <- c ;; k" := (bind c (fun x => k))
  (at level 61, c at next level, right associativity) : py_scope.
Notation "c ;; k" := (bind c (fun _ => k))
  (at level 61, right associativity) : py_scope.
Local Open Scope py_scope.

(** [items[i]], raising [IndexError] out of range (for [0 <= i]). *)
Definition index (items : list pyval) (i : nat) : M pyval :=
  match nth_error items i with
  | Some v => ret v
  | None => raise (Exc "IndexError" "list index out of range")
  end.

(** [await v]: an object that is not awaitable raises [TypeError]. *)
Definition await (v : pyval) : M pyval :=
  match v with
  | PAwaitable => ret PNone
  | _ => raise (Exc "TypeError"
                  ("object " ++ type_name v ++ " can't be used in 'await' expression"))
  end.

(** [json.dumps], imported as [serialize]. *)
Definition serialize (v : pyval) : M json_text :=
  if json_encodable v then ret (Dumps v)
  else raise (not_serializable v).

(** Modelled from the spec: [transport.schedule_msg(text)], the transport's
    send capability.  The text is queued and an awaitable is returned. *)
Definition schedule_msg (text : json_text) : M pyval :=
  fun log => (Return PAwaitable, (log ++ [ScheduleMsg text])%list).

(** Modelled from the spec: [transport.close()], the transport's close
    capability. *)
Definition close : M pyval :=
  fun log => (Return PAwaitable, (log ++ [Close])%list).

(** ** Message types and value objects *)

Module WAMPMsgType.
Definition HELLO : Z := 1.
Definition WELCOME : Z := 2.
Definition ABORT : Z := 3.
Definition ERROR : Z := 8.
Definition CALL : Z := 48.
Definition CALL_RESULT : Z := 50.
Definition INVOCATION : Z := 68.
Definition SUBSCRIBE : Z := 32.
Definition SUBSCRIBED : Z := 33.
Definition UNSUBSCRIBE : Z := 34.
Definition UNSUBSCRIBED : Z := 35.
Definition PUBLISH : Z := 16.
Definition PUBLISHED : Z := 17.
Definition EVENT : Z := 36.
End WAMPMsgType.

(** A member of the [IntEnum] placed in an envelope: it is an [int]. *)
Definition member (code : Z) : pyval := PInt code.

Record WAMPSession : Type := {
  session_id : Z;
  remote : option string
}.

Record WAMPSubscribeRequest : Type := {
  sub_session : WAMPSession;
  sub_request_id : pyval;
  sub_options : pyval;
  sub_uri : pyval
}.

Record WAMPSubscribeErrorResponse : Type := {
  sub_err_uri : pyval;
  sub_err_details : pyval
}.

Record WAMPUnsubscribeRequest : Type := {
  unsub_session : WAMPSession;
  unsub_request_id : pyval;
  unsub_subscription : pyval
}.

Record WAMPUnsubscribeErrorResponse : Type := {
  unsub_err_uri : pyval;
  unsub_err_details : pyval
}.

Record WAMPEvent : Type := {
  publication : pyval;
  details : pyval;
  args : pyval;
  kwargs : pyval
}.

Record WAMPRPCRequest : Type := {
  rpc_session : WAMPSession;
  rpc_request_id : pyval;
  rpc_options : pyval;
  rpc_uri : pyval;
  rpc_args : pyval;
  rpc_kwargs : pyval
}.

Record WAMPRPCErrorResponse : Type := {
  rpc_err_uri : pyval;
  rpc_err_details : pyval;
  rpc_err_args : pyval;
  rpc_err_kwargs : pyval
}.

(** What a handler hands back, split the way the [isinstance] test of its
    caller splits it. *)
Inductive rpc_result : Type :=
| RPCError (r : WAMPRPCErrorResponse)
| RPCValue (v : pyval).

(** The subscribe workflow reads [result.subscription] from anything that is
    not an error response; [SubscribeOther] is an object without that
    attribute. *)
Inductive subscribe_result : Type :=
| SubscribeError (r : WAMPSubscribeErrorResponse)
| SubscribeResponse (subscription : pyval)
| SubscribeOther (cls : string).

Inductive unsubscribe_result : Type :=
| UnsubscribeError (r : WAMPUnsubscribeErrorResponse)
| UnsubscribeOther (v : pyval).

(** ** [class WAMPProtocol] *)

Section WAMPProtocol.

(** The constructor's arguments.  A handler is given by how each call of it
    ends; one left at its default [None] is a handler whose every call throws
    [TypeError].  [deserialize] is [json.loads]: it returns the decoded value
    or throws its decoding error. *)
Variable session : WAMPSession.
Variable agent_name_arg : option string.
Variable open_handler : WAMPSession -> outcome pyval.
Variable rpc_handler : WAMPRPCRequest -> outcome rpc_result.
Variable subscribe_handler : WAMPSubscribeRequest -> outcome subscribe_result.
Variable unsubscribe_handler :
  WAMPUnsubscribeRequest -> outcome unsubscribe_result.
Variable deserialize : string -> outcome pyval.

(** [agent_name or 'aiohttp-server-wamp']. *)
Definition agent_name : string :=
  match agent_name_arg with
  | Some name => if String.eqb name "" then "aiohttp-server-wamp" else name
  | None => "aiohttp-server-wamp"
  end.

Definition do_unimplemented (msg_type request_id : pyval) : M pyval :=
  let error_msg :=
    PTuple [member WAMPMsgType.ERROR; request_id; PDict [];
            PStr "wamp.error.not_implemented"] in
  text <- serialize error_msg ;;
  schedule_msg text ;;
  ret PNone.

Definition do_protocol_violation (msg : pyval) : M pyval :=
  let details := if truthy msg then PDict [("message", msg)] else PDict [] in
  let error_msg :=
    PTuple [member WAMPMsgType.ABORT; details;
            PStr "wamp.error.protocol_violation"] in
  text <- serialize error_msg ;;
  sent <- schedule_msg text ;;
  await sent ;;
  closed <- close ;;
  await closed ;;
  ret PNone.

Definition do_welcome : M pyval :=
  let welcome :=
    PTuple [member WAMPMsgType.WELCOME;
            PInt (session_id session);
            PDict [("roles", PDict [("broker", PDict []); ("dealer", PDict [])]);
                   ("agent", PStr agent_name)]] in
  text <- serialize welcome ;;
  schedule_msg text ;;
  ret PNone.

Definition do_unauthorized (data : list pyval) : M pyval :=
  msg_type <- index data 0 ;;
  request_id <- index data 1 ;;
  text <- serialize (PTuple [msg_type; request_id; PDict [];
                             PStr "wamp.error.not_authorized"]) ;;
  schedule_msg text ;;
  ret PNone.

Definition publish_event (subscription : pyval) (event : WAMPEvent) : M pyval :=
  let msg := [member WAMPMsgType.EVENT; subscription; publication event;
              PDict []] in
  let msg :=
    if truthy (kwargs event) then (msg ++ [args event] ++ [kwargs event])%list
    else if truthy (args event) then (msg ++ [args event])%list
    else msg in
  text <- serialize (PList msg) ;;
  schedule_msg text ;;
  ret PNone.

Definition recv_rpc_call (data : list pyval) : M pyval :=
  request_id <- index data 1 ;;
  uri <- index data 2 ;;
  args <- (if (3 <? List.length data)%nat then index data 3 else ret (PTuple [])) ;;
  kwargs <- (if (4 <? List.length data)%nat then index data 4 else ret (PDict [])) ;;
  (if negb (isinstance_int request_id) || negb (isinstance_str uri)
   then raise (Exc "Exception" "")
   else ret tt) ;;
  result_msg <-
    try_except
      (let request :=
         {| rpc_session := session; rpc_request_id := request_id;
            rpc_options := PDict []; rpc_uri := uri;
            rpc_args := args; rpc_kwargs := kwargs |} in
       result <- call (rpc_handler request) ;;
       match result with
       | RPCError r =>
           ret (PTuple [member WAMPMsgType.ERROR; member WAMPMsgType.CALL;
                        request_id; PDict []; rpc_err_uri r; rpc_err_args r;
                        rpc_err_kwargs r])
       | RPCValue v =>
           ret (PTuple [member WAMPMsgType.CALL_RESULT; request_id; v])
       end)
      (fun e =>
         ret (PTuple [member WAMPMsgType.ERROR; member WAMPMsgType.CALL;
                      request_id; PDict [];
                      PStr "wamp.error.exception_during_rpc_call";
                      PStr (str_of_exc e)])) ;;
  text <- serialize result_msg ;;
  schedule_msg text ;;
  ret PNone.

Definition recv_subscribe (data : list pyval) : M pyval :=
  request_id <- index data 1 ;;
  options <- index data 2 ;;
  uri <- index data 3 ;;
  let request :=
    {| sub_session := session; sub_request_id := request_id;
       sub_options := options; sub_uri := uri |} in
  result_msg <-
    try_except
      (result <- call (subscribe_handler request) ;;
       match result with
       | SubscribeError r =>
           ret (PTuple [member WAMPMsgType.ERROR; member WAMPMsgType.SUBSCRIBE;
                        request_id; sub_err_details r; sub_err_uri r])
       | SubscribeResponse subscription =>
           ret (PTuple [member WAMPMsgType.SUBSCRIBED; request_id;
                        subscription])
       | SubscribeOther cls =>
           raise (Exc "AttributeError"
                    ("'" ++ cls ++ "' object has no attribute 'subscription'"))
       end)
      (fun e =>
         ret (PTuple [member WAMPMsgType.ERROR; member WAMPMsgType.SUBSCRIBE;
                      request_id; PDict [];
                      PStr "wamp.error.exception_during_rpc_call";
                      PStr (str_of_exc e)])) ;;
  text <- serialize result_msg ;;
  schedule_msg text ;;
  ret PNone.

Definition recv_unsubscribe (data : list pyval) : M pyval :=
  request_id <- index data 1 ;;
  subscription <- index data 2 ;;
  let request :=
    {| unsub_session := session; unsub_request_id := request_id;
       unsub_subscription := subscription |} in
  result_msg <-
    try_except
      (result <- call (unsubscribe_handler request) ;;
       match result with
       | UnsubscribeError r =>
           ret (PTuple [member WAMPMsgType.ERROR;
                        member WAMPMsgType.UNSUBSCRIBE;
                        request_id; unsub_err_details r; unsub_err_uri r])
       | UnsubscribeOther _ =>
           ret (PTuple [member WAMPMsgType.UNSUBSCRIBED; request_id])
       end)
      (fun e =>
         ret (PTuple [member WAMPMsgType.ERROR; member WAMPMsgType.SUBSCRIBE;
                      request_id; PDict [];
                      PStr "wamp.error.exception_during_rpc_call";
                      PStr (str_of_exc e)])) ;;
  text <- serialize result_msg ;;
  schedule_msg text ;;
  ret PNone.

Definition handle_msg (message : string) : M pyval :=
  data <- call (deserialize message) ;;
  match data with
  | PList items =>
      msg_type <- index items 0 ;;
      if py_eq_int msg_type WAMPMsgType.HELLO then
        do_welcome ;;
        call (open_handler session) ;;
        ret PNone
      else if py_eq_int msg_type WAMPMsgType.CALL then
        recv_rpc_call items ;;
        ret PNone
      else if py_eq_int msg_type WAMPMsgType.SUBSCRIBE then
        recv_subscribe items ;;
        ret PNone
      else if py_eq_int msg_type WAMPMsgType.UNSUBSCRIBE then
        recv_unsubscribe items ;;
        ret PNone
      else if py_eq_int msg_type WAMPMsgType.EVENT
              || py_eq_int msg_type WAMPMsgType.INVOCATION then
        unauthorized <- do_unauthorized items ;;
        await unauthorized ;;
        ret PNone
      else if py_eq_int msg_type WAMPMsgType.PUBLISH
              || py_eq_int msg_type WAMPMsgType.PUBLISHED then
        request_id <- index items 1 ;;
        do_unimplemented msg_type request_id ;;
        ret PNone
      else
        do_protocol_violation (PStr "Unknown WAMP message type.") ;;
        ret PNone
  | _ => raise (Exc "Exception" "incoming data is no list")
  end.

End WAMPProtocol.

Arguments agent_name agent_name_arg : simpl never.

(** ** Reading a transport log *)

(** The dispatcher reached one of the branches of the [if]/[elif] chain of
    [handle_msg] other than the final [else]. *)
Definition dispatched (msg_type : pyval) : bool :=
  py_eq_int msg_type WAMPMsgType.HELLO
  || py_eq_int msg_type WAMPMsgType.CALL
  || py_eq_int msg_type WAMPMsgType.SUBSCRIBE
  || py_eq_int msg_type WAMPMsgType.UNSUBSCRIBE
  || py_eq_int msg_type WAMPMsgType.EVENT
  || py_eq_int msg_type WAMPMsgType.INVOCATION
  || py_eq_int msg_type WAMPMsgType.PUBLISH
  || py_eq_int msg_type WAMPMsgType.PUBLISHED.

(** [isinstance(data, list)]. *)
Definition isinstance_list (v : pyval) : bool :=
  match v with
  | PList _ => true
  | _ => false
  end.

(** The text decodes to a list. *)
Definition decodes_to_list (d : outcome pyval) : bool :=
  match d with
  | Return v => isinstance_list v
  | Throw _ => false
  end.

(** The fields of the envelope a text encodes. *)
Definition envelope_fields (text : json_text) : list pyval :=
  match text with
  | Dumps (PTuple fields) => fields
  | Dumps (PList fields) => fields
  | Dumps _ => []
  end.

Definition is_abort (text : json_text) : bool :=
  match envelope_fields text with
  | code :: _ => py_eq_int code WAMPMsgType.ABORT
  | [] => false
  end.

(** A transport call of the protocol-violation path: an ABORT envelope or a
    close request. *)
Definition violation_call (c : transport_call) : bool :=
  match c with
  | ScheduleMsg text => is_abort text
  | Close => true
  end.

(** The envelope sent on a protocol violation with reason [reason]. *)
Definition abort_envelope (reason : string) : pyval :=
  PTuple [member WAMPMsgType.ABORT; PDict [("message", PStr reason)];
          PStr "wamp.error.protocol_violation"].

(** The request [recv_rpc_call] builds from the envelope
    [[CALL, request_id, uri] ++ rest]: [args] and [kwargs] are the fourth and
    fifth fields when present, [()] and [{}] otherwise. *)
Definition rpc_request_of (session : WAMPSession) (request_id uri : pyval)
    (rest : list pyval) : WAMPRPCRequest :=
  {| rpc_session := session; rpc_request_id := request_id;
     rpc_options := PDict []; rpc_uri := uri;
     rpc_args := hd (PTuple []) rest;
     rpc_kwargs := hd (PDict []) (tl rest) |}.

(** [quiet c P]: from any log, [c] only appends transport calls that are
    neither an ABORT envelope nor a close request, and a value it returns
    satisfies [P]. *)
Definition quiet {A} (c : M A) (P : A -> Prop) : Prop :=
  forall log, exists r evs,
    c log = (r, (log ++ evs)%list)
    /\ existsb violation_call evs = false
    /\ match r with Return a => P a | Throw _ => True end.

(** ** A sample deployment

    A session, handlers and a reader for a handful of texts, used to run the
    dispatcher on concrete envelopes. *)

Module Sample.

Definition quote : string := String (Ascii.ascii_of_nat 34) EmptyString.

Definition session : WAMPSession :=
  {| session_id := 4242; remote := Some "127.0.0.1:50000" |}.

Definition call_text : string :=
  "[48, 7, " ++ quote ++ "math.add" ++ quote ++ ", [2, 3]]".

Definition failing_call_text : string :=
  "[48, 8, " ++ quote ++ "math.div" ++ quote ++ ", [1, 0]]".

Definition untyped_call_text : string :=
  "[48, " ++ quote ++ "seven" ++ quote ++ ", " ++ quote ++ "math.add" ++ quote
  ++ "]".

(** The texts the reader knows, each with the value [json.loads] gives. *)
Definition texts : list (string * pyval) :=
  [ ("{}", PDict []);
    ("[]", PList []);
    ("[16]", PList [PInt 16]);
    ("[36]", PList [PInt 36]);
    ("[36, 9]", PList [PInt 36; PInt 9]);
    ("[68, 9]", PList [PInt 68; PInt 9]);
    ("[99, 1]", PList [PInt 99; PInt 1]);
    ("[34, 5, 42]", PList [PInt 34; PInt 5; PInt 42]);
    ("[34, 6, 43]", PList [PInt 34; PInt 6; PInt 43]);
    (call_text, PList [PInt 48; PInt 7; PStr "math.add"; PList [PInt 2; PInt 3]]);
    (failing_call_text,
     PList [PInt 48; PInt 8; PStr "math.div"; PList [PInt 1; PInt 0]]);
    (untyped_call_text, PList [PInt 48; PStr "seven"; PStr "math.add"]) ].

Fixpoint lookup (s : string) (table : list (string * pyval)) : option pyval :=
  match table with
  | [] => None
  | (k, v) :: rest => if String.eqb s k then Some v else lookup s rest
  end.

(** [json.loads] on the texts of [texts]; any other text is taken to be
    undecodable, which is what the examples use [hello] for. *)
Definition loads (s : string) : outcome pyval :=
  match lookup s texts with
  | Some v => Return v
  | None => Throw (Exc "JSONDecodeError" "Expecting value: line 1 column 1 (char 0)")
  end.

Definition on_open (_ : WAMPSession) : outcome pyval := Return PNone.

(** [math.add] returns 5, [math.div] divides by zero. *)
Definition rpc (request : WAMPRPCRequest) : outcome rpc_result :=
  match rpc_uri request with
  | PStr "math.add" => Return (RPCValue (PInt 5))
  | PStr "math.div" => Throw (Exc "ZeroDivisionError" "division by zero")
  | _ => Return (RPCError {| rpc_err_uri := PStr "wamp.error.no_such_procedure";
                             rpc_err_details := PDict [];
                             rpc_err_args := PTuple [];
                             rpc_err_kwargs := PDict [] |})
  end.

Definition subscribe (request : WAMPSubscribeRequest)
  : outcome subscribe_result :=
  Return (SubscribeResponse (PInt 42)).

(** Subscription 42 is unknown to the registry, which says so with an error
    response; on subscription 43 the registry fails. *)
Definition unsubscribe (request : WAMPUnsubscribeRequest)
  : outcome unsubscribe_result :=
  match unsub_subscription request with
  | PInt 42 =>
      Return (UnsubscribeError
                {| unsub_err_uri := PStr "wamp.error.no_such_subscription";
                   unsub_err_details := PDict [] |})
  | PInt 43 => Throw (Exc "KeyError" "43")
  | _ => Return (UnsubscribeOther PNone)
  end.

(** [handle_msg] of the sample deployment. *)
Definition handle (message : string) : M pyval :=
  handle_msg session None on_open rpc subscribe unsubscribe loads message.

End Sample.

(** ** Identifiers and the session of a new protocol object *)

(** [generate_global_id()].  [randint] is [random.randint], given by the
    value it draws for the bounds it is called with. *)
Definition generate_global_id (randint : Z -> Z -> Z) : Z :=
  randint 1 9007199254740992.

(** The session [__init__] builds.  [remote] is what [format_sockaddr]
    returned for the transport's peer; that helper is in another module. *)
Definition init_session (randint : Z -> Z -> Z) (remote : option string)
  : WAMPSession :=
  {| session_id := generate_global_id randint; remote := remote |}.

(** ** More ways to read a transport log *)

Definition is_send (c : transport_call) : bool :=
  match c with
  | ScheduleMsg _ => true
  | Close => false
  end.

(** How many envelopes a run of transport calls sends. *)
Definition count_sends (calls : list transport_call) : nat :=
  List.length (filter is_send calls).

(** The field of an envelope that carries the request id: the third of an
    ERROR envelope, the second of any other. *)
Definition correlation_field (text : json_text) : option pyval :=
  match envelope_fields text with
  | code :: rest =>
      if py_eq_int code WAMPMsgType.ERROR then nth_error rest 1
      else nth_error rest 0
  | [] => None
  end.

(** The WELCOME envelope of a session. *)
Definition welcome_envelope (session : WAMPSession) (agent : string) : pyval :=
  PTuple [PInt 2; PInt (session_id session);
          PDict [("roles", PDict [("broker", PDict []); ("dealer", PDict [])]);
                 ("agent", PStr agent)]].

(** [framed c]: [c] never looks at the transport log and only appends to it,
    so running it from any log is running it from the empty log. *)
Definition framed {A} (c : M A) : Prop :=
  forall log, c log = (fst (c []), (log ++ snd (c []))%list).

(** ** A second deployment

    Handlers that exercise the remaining outcomes, and the texts for them. *)

Module Scenario.

Definition hello_text : string :=
  "[1, " ++ Sample.quote ++ "realm1" ++ Sample.quote ++ ", {}]".

Definition subscribe_text (topic : string) (request_id : string) : string :=
  "[32, " ++ request_id ++ ", {}, " ++ Sample.quote ++ topic ++ Sample.quote
  ++ "]".

Definition call_text (uri : string) (request_id : string) : string :=
  "[48, " ++ request_id ++ ", " ++ Sample.quote ++ uri ++ Sample.quote ++ "]".

Definition full_call_text (trailing : string) : string :=
  "[48, 7, " ++ Sample.quote ++ "math.add" ++ Sample.quote ++ ", [2, 3], {}"
  ++ trailing ++ "]".

Definition full_call_fields (trailing : list pyval) : pyval :=
  PList ([PInt 48; PInt 7; PStr "math.add"; PList [PInt 2; PInt 3]; PDict []]
         ++ trailing)%list.

Definition subscribe_fields (topic : string) (request_id : Z) : pyval :=
  PList [PInt 32; PInt request_id; PDict []; PStr topic].

Definition call_fields (uri : string) (request_id : Z) : pyval :=
  PList [PInt 48; PInt request_id; PStr uri].

Definition texts : list (string * pyval) :=
  [ (hello_text, PList [PInt 1; PStr "realm1"; PDict []]);
    ("[16, 3]", PList [PInt 16; PInt 3]);
    ("[17, 4]", PList [PInt 17; PInt 4]);
    ("[99, 1]", PList [PInt 99; PInt 1]);
    ("[48, 7]", PList [PInt 48; PInt 7]);
    ("[32, 3, {}]", PList [PInt 32; PInt 3; PDict []]);
    ("[34, 9]", PList [PInt 34; PInt 9]);
    ("[34, 9, 7]", PList [PInt 34; PInt 9; PInt 7]);
    (subscribe_text "topic.x" "3", subscribe_fields "topic.x" 3);
    (subscribe_text "topic.secret" "4", subscribe_fields "topic.secret" 4);
    (subscribe_text "topic.boom" "5", subscribe_fields "topic.boom" 5);
    (subscribe_text "topic.odd" "6", subscribe_fields "topic.odd" 6);
    (call_text "math.sqrt" "10", call_fields "math.sqrt" 10);
    (call_text "clock.now" "11", call_fields "clock.now" 11);
    (call_text "sys.exit" "12", call_fields "sys.exit" 12);
    (full_call_text "", full_call_fields []);
    (full_call_text ", 99", full_call_fields [PInt 99]) ].

Definition loads (s : string) : outcome pyval :=
  match Sample.lookup s texts with
  | Some v => Return v
  | None => Throw (Exc "JSONDecodeError" "Expecting value: line 1 column 1 (char 0)")
  end.

(** [math.sqrt] is refused with an error response, [clock.now] returns a
    [datetime], [sys.exit] raises [SystemExit]. *)
Definition rpc (request : WAMPRPCRequest) : outcome rpc_result :=
  match rpc_uri request with
  | PStr "math.sqrt" =>
      Return (RPCError {| rpc_err_uri := PStr "wamp.error.invalid_argument";
                          rpc_err_details := PDict [("hint", PStr "negative")];
                          rpc_err_args := PList [PInt (-1)];
                          rpc_err_kwargs := PDict [] |})
  | PStr "clock.now" => Return (RPCValue (PObject "datetime"))
  | PStr "sys.exit" => Throw (BaseExc "SystemExit" "0")
  | _ => Return (RPCValue PNone)
  end.

(** [topic.x] gets subscription 42, [topic.secret] an error response, on
    [topic.boom] the registry fails, and for [topic.odd] it returns [None]. *)
Definition subscribe (request : WAMPSubscribeRequest)
  : outcome subscribe_result :=
  match sub_uri request with
  | PStr "topic.x" => Return (SubscribeResponse (PInt 42))
  | PStr "topic.secret" =>
      Return (SubscribeError
                {| sub_err_uri := PStr "wamp.error.not_authorized";
                   sub_err_details := PDict [("reason", PStr "private")] |})
  | PStr "topic.boom" => Throw (Exc "RuntimeError" "registry down")
  | _ => Return (SubscribeOther "NoneType")
  end.

Definition unsubscribe (request : WAMPUnsubscribeRequest)
  : outcome unsubscribe_result :=
  Return (UnsubscribeOther (PBool true)).

(** The open hook fails on a session without peer address. *)
Definition on_open (session : WAMPSession) : outcome pyval :=
  match remote session with
  | Some _ => Return PNone
  | None => Throw (Exc "ValueError" "no peer")
  end.

Definition handle (message : string) : M pyval :=
  handle_msg Sample.session None on_open rpc subscribe unsubscribe loads
    message.

End Scenario.

(** ** Facts about comparisons and encodability *)

Lemma py_eq_int_inj (v : pyval) (a b : Z) :
  py_eq_int v a = true -> py_eq_int v b = true -> a = b.
Proof.
  unfold py_eq_int. destruct (as_exact_int v) as [z|]; try discriminate.
  intros Ha Hb. apply Z.eqb_eq in Ha. apply Z.eqb_eq in Hb. congruence.
Qed.

Lemma py_eq_int_other (v : pyval) (a b : Z) :
  py_eq_int v a = true -> a <> b -> py_eq_int v b = false.
Proof.
  intros Ha Hne. destruct (py_eq_int v b) eqn:Hb; [|reflexivity].
  exfalso. apply Hne. exact (py_eq_int_inj v a b Ha Hb).
Qed.

(** A value equal to a message-type code is a number, so it can be encoded. *)
Lemma py_eq_int_encodable (v : pyval) (code : Z) :
  py_eq_int v code = true -> json_encodable v = true.
Proof.
  unfold py_eq_int. destruct v; simpl; try discriminate; reflexivity.
Qed.

Lemma isinstance_int_encodable (v : pyval) :
  isinstance_int v = true -> json_encodable v = true.
Proof. destruct v; simpl; try discriminate; reflexivity. Qed.

Lemma dispatched_false (v : pyval) :
  dispatched v = false ->
  py_eq_int v WAMPMsgType.HELLO = false
  /\ py_eq_int v WAMPMsgType.CALL = false
  /\ py_eq_int v WAMPMsgType.SUBSCRIBE = false
  /\ py_eq_int v WAMPMsgType.UNSUBSCRIBE = false
  /\ py_eq_int v WAMPMsgType.EVENT = false
  /\ py_eq_int v WAMPMsgType.INVOCATION = false
  /\ py_eq_int v WAMPMsgType.PUBLISH = false
  /\ py_eq_int v WAMPMsgType.PUBLISHED = false.
Proof.
  unfold dispatched. intros H.
  repeat (apply orb_false_iff in H; destruct H as [H ?]).
  repeat split; assumption.
Qed.

(** The branch of [handle_msg] an envelope of a given type takes. *)
Ltac pick_branch Hcode :=
  repeat match goal with
  | |- context [py_eq_int ?v ?c] =>
      first
        [ rewrite Hcode
        | rewrite (py_eq_int_other v _ c Hcode) by (vm_compute; discriminate) ]
  end.

(** Running a method: unfold the plumbing of [M]. *)
Ltac run :=
  unfold bind, call, ret, raise, index, serialize, schedule_msg, close,
    await, try_except; simpl.

(** ** Computations that stay off the violation path *)

Lemma quiet_ret {A} (a : A) (P : A -> Prop) : P a -> quiet (ret a) P.
Proof.
  intros Ha log. exists (Return a), []. rewrite app_nil_r. auto.
Qed.

Lemma quiet_raise {A} (e : pyexc) (P : A -> Prop) : quiet (raise e) P.
Proof.
  intros log. exists (Throw e), []. rewrite app_nil_r. simpl. auto.
Qed.

Lemma quiet_bind {A B} (c : M A) (k : A -> M B)
    (P : A -> Prop) (Q : B -> Prop) :
  quiet c P -> (forall a, P a -> quiet (k a) Q) -> quiet (bind c k) Q.
Proof.
  intros Hc Hk log. destruct (Hc log) as (r & evs & Heq & Hq & Hr).
  unfold bind. rewrite Heq. destruct r as [a|e].
  - destruct (Hk a Hr (log ++ evs)%list) as (r' & evs' & Heq' & Hq' & Hr').
    exists r', (evs ++ evs')%list. rewrite Heq', app_assoc, existsb_app, Hq, Hq'.
    auto.
  - exists (Throw e), evs. auto.
Qed.

Lemma quiet_try_except {A} (body : M A) (handler : pyexc -> M A)
    (P : A -> Prop) :
  quiet body P -> (forall e, quiet (handler e) P) ->
  quiet (try_except body handler) P.
Proof.
  intros Hb Hh log. destruct (Hb log) as (r & evs & Heq & Hq & Hr).
  unfold try_except. rewrite Heq. destruct r as [a|[cls msg|cls msg]].
  - exists (Return a), evs. auto.
  - destruct (Hh (Exc cls msg) (log ++ evs)%list)
      as (r' & evs' & Heq' & Hq' & Hr').
    exists r', (evs ++ evs')%list. rewrite Heq', app_assoc, existsb_app, Hq, Hq'.
    auto.
  - exists (Throw (BaseExc cls msg)), evs. auto.
Qed.

Lemma quiet_call {A} (o : outcome A) : quiet (call o) (fun _ => True).
Proof. destruct o; [apply quiet_ret; exact I | apply quiet_raise]. Qed.

Lemma quiet_index (items : list pyval) (i : nat) :
  quiet (index items i) (fun _ => True).
Proof.
  unfold index. destruct (nth_error items i);
    [apply quiet_ret; exact I | apply quiet_raise].
Qed.

(** Encoding a value that is not an ABORT envelope and scheduling it. *)
Lemma quiet_send (v : pyval) :
  is_abort (Dumps v) = false ->
  quiet (text <- serialize v ;; schedule_msg text ;; ret PNone)
        (fun _ => True).
Proof.
  intros Hv log. unfold bind, serialize, schedule_msg, ret, raise.
  destruct (json_encodable v).
  - exists (Return PNone), [ScheduleMsg (Dumps v)]. simpl. rewrite Hv. auto.
  - eexists (Throw _), []. rewrite app_nil_r. simpl. auto.
Qed.

Lemma quiet_run {A} (c : M A) (P : A -> Prop) (log : transport_log) :
  quiet c P ->
  exists r evs, c log = (r, (log ++ evs)%list)
                /\ existsb violation_call evs = false.
Proof.
  intros Hc. destruct (Hc log) as (r & evs & Heq & Hq & _). eauto.
Qed.

Ltac quiet_step :=
  first [ apply quiet_index
        | apply quiet_call
        | apply quiet_raise
        | apply quiet_ret; exact I
        | match goal with
          | |- quiet (if ?b then _ else _) _ => destruct b; quiet_step
          end ].

(** ** The dispatcher *)

Section Dispatch.

Variable session : WAMPSession.
Variable agent_name_arg : option string.
Variable open_handler : WAMPSession -> outcome pyval.
Variable rpc_handler : WAMPRPCRequest -> outcome rpc_result.
Variable subscribe_handler : WAMPSubscribeRequest -> outcome subscribe_result.
Variable unsubscribe_handler :
  WAMPUnsubscribeRequest -> outcome unsubscribe_result.
Variable deserialize : string -> outcome pyval.

Local Notation handle :=
  (handle_msg session agent_name_arg open_handler rpc_handler
     subscribe_handler unsubscribe_handler deserialize).

(** Once the text has decoded to a non-empty list, [handle_msg] is its
    [if]/[elif] chain on the first element. *)
Lemma handle_msg_dispatch
    (message : string) (msg_type : pyval) (rest : list pyval)
    (log : transport_log) :
  deserialize message = Return (PList (msg_type :: rest)) ->
  handle message log =
    (let items := msg_type :: rest in
     if py_eq_int msg_type WAMPMsgType.HELLO then
       do_welcome session agent_name_arg ;;
       call (open_handler session) ;;
       ret PNone
     else if py_eq_int msg_type WAMPMsgType.CALL then
       recv_rpc_call session rpc_handler items ;;
       ret PNone
     else if py_eq_int msg_type WAMPMsgType.SUBSCRIBE then
       recv_subscribe session subscribe_handler items ;;
       ret PNone
     else if py_eq_int msg_type WAMPMsgType.UNSUBSCRIBE then
       recv_unsubscribe session unsubscribe_handler items ;;
       ret PNone
     else if py_eq_int msg_type WAMPMsgType.EVENT
             || py_eq_int msg_type WAMPMsgType.INVOCATION then
       unauthorized <- do_unauthorized items ;;
       await unauthorized ;;
       ret PNone
     else if py_eq_int msg_type WAMPMsgType.PUBLISH
             || py_eq_int msg_type WAMPMsgType.PUBLISHED then
       request_id <- index items 1 ;;
       do_unimplemented msg_type request_id ;;
       ret PNone
     else
       do_protocol_violation (PStr "Unknown WAMP message type.") ;;
       ret PNone) log.
Proof.
  intros Hdec. unfold handle_msg. unfold bind at 1. unfold call.
  rewrite Hdec. reflexivity.
Qed.

(** C1 (as the code has it).  A text that [json.loads] rejects, or that
    decodes to something other than a list, makes [handle_msg] raise: the
    decoder's own exception in the first case, [Exception('incoming data is
    no list')] in the second.  Nothing is sent and no close is requested: the
    transport log is left as it was. *)
Theorem handle_msg_malformed_raises (message : string) (log : transport_log) :
  decodes_to_list (deserialize message) = false ->
  handle message log =
    (Throw match deserialize message with
           | Throw e => e
           | Return _ => Exc "Exception" "incoming data is no list"
           end,
     log).
Proof.
  unfold handle_msg, decodes_to_list. run.
  destruct (deserialize message) as [v|e]; simpl; [|reflexivity].
  destruct v; simpl; intros H; try discriminate; reflexivity.
Qed.

(** C9.  An envelope that decodes to a non-empty list whose first element
    equals none of the codes [handle_msg] dispatches on produces exactly two
    transport calls, in this order: the ABORT envelope
    [[ABORT, {message: "Unknown WAMP message type."},
    "wamp.error.protocol_violation"]], then the close request. *)
Theorem handle_msg_unknown_type_aborts_then_closes
    (message : string) (msg_type : pyval) (rest : list pyval)
    (log : transport_log) :
  deserialize message = Return (PList (msg_type :: rest)) ->
  dispatched msg_type = false ->
  handle message log =
    (Return PNone,
     (log ++ [ScheduleMsg (Dumps (abort_envelope "Unknown WAMP message type."));
              Close])%list).
Proof.
  intros Hdec Hcode. apply dispatched_false in Hcode.
  destruct Hcode as (H1 & H2 & H3 & H4 & H5 & H6 & H7 & H8).
  unfold handle_msg. run. rewrite Hdec. simpl.
  rewrite H1, H2, H3, H4, H5, H6, H7, H8. simpl.
  unfold do_protocol_violation. run.
  rewrite <- app_assoc. reflexivity.
Qed.

(** C10.  Three kinds of list-shaped input make [handle_msg] index past the
    end of the decoded list and raise [IndexError] with nothing sent: the
    empty list ([data[0]]), and a one-element list whose element is PUBLISH or
    PUBLISHED, or EVENT or INVOCATION ([data[1]]). *)
Theorem handle_msg_short_envelope_index_error
    (message : string) (data : list pyval) (log : transport_log) :
  deserialize message = Return (PList data) ->
  data = []
  \/ (exists msg_type,
        data = [msg_type]
        /\ (py_eq_int msg_type WAMPMsgType.PUBLISH
            || py_eq_int msg_type WAMPMsgType.PUBLISHED
            || py_eq_int msg_type WAMPMsgType.EVENT
            || py_eq_int msg_type WAMPMsgType.INVOCATION = true)) ->
  handle message log =
    (Throw (Exc "IndexError" "list index out of range"), log).
Proof.
  intros Hdec Hshape. unfold handle_msg. run. rewrite Hdec. simpl.
  destruct Hshape as [-> | (msg_type & -> & Hcode)]; [reflexivity|].
  simpl.
  repeat (apply orb_true_iff in Hcode; destruct Hcode as [Hcode|Hcode]);
    pick_branch Hcode; simpl; unfold do_unauthorized; run; reflexivity.
Qed.

(** The calls [recv_rpc_call] makes between reading the fields and sending the
    reply, for an envelope with at least three fields. *)
Lemma recv_rpc_call_fields
    (msg_type request_id uri : pyval) (rest : list pyval)
    (log : transport_log) :
  recv_rpc_call session rpc_handler (msg_type :: request_id :: uri :: rest) log
  = ((if negb (isinstance_int request_id) || negb (isinstance_str uri)
      then raise (Exc "Exception" "")
      else ret tt) ;;
     result_msg <-
       try_except
         (result <- call (rpc_handler
                            (rpc_request_of session request_id uri rest)) ;;
          match result with
          | RPCError r =>
              ret (PTuple [member WAMPMsgType.ERROR; member WAMPMsgType.CALL;
                           request_id; PDict []; rpc_err_uri r; rpc_err_args r;
                           rpc_err_kwargs r])
          | RPCValue v =>
              ret (PTuple [member WAMPMsgType.CALL_RESULT; request_id; v])
          end)
         (fun e =>
            ret (PTuple [member WAMPMsgType.ERROR; member WAMPMsgType.CALL;
                         request_id; PDict [];
                         PStr "wamp.error.exception_during_rpc_call";
                         PStr (str_of_exc e)])) ;;
     text <- serialize result_msg ;;
     schedule_msg text ;;
     ret PNone) log.
Proof.
  unfold recv_rpc_call, rpc_request_of.
  destruct rest as [|a [|k rest]]; reflexivity.
Qed.

(** C4.  A CALL envelope [[CALL, request_id, uri, ...]] whose [request_id] is
    not an [int] or whose [uri] is not a [str] makes [handle_msg] raise a bare
    [Exception()]; no reply and no ABORT is sent, and the exception is not
    caught inside the dispatcher. *)
Theorem handle_msg_call_wrong_types_raises
    (message : string) (msg_type request_id uri : pyval) (rest : list pyval)
    (log : transport_log) :
  deserialize message = Return (PList (msg_type :: request_id :: uri :: rest)) ->
  py_eq_int msg_type WAMPMsgType.CALL = true ->
  isinstance_int request_id = false \/ isinstance_str uri = false ->
  handle message log = (Throw (Exc "Exception" ""), log).
Proof.
  intros Hdec Hcode Htypes.
  rewrite (handle_msg_dispatch _ _ _ _ Hdec). cbv zeta. pick_branch Hcode.
  unfold bind at 1. rewrite recv_rpc_call_fields.
  assert (Hbad : negb (isinstance_int request_id)
                 || negb (isinstance_str uri) = true).
  { destruct Htypes as [-> | ->]; simpl; auto using orb_true_r. }
  rewrite Hbad. reflexivity.
Qed.

(** C5.  When the executor raises an exception on a CALL with an [int]
    [request_id] and a [str] [uri], the only transport call is the reply
    [[ERROR, CALL, request_id, {}, "wamp.error.exception_during_rpc_call",
    str(e)]]; [handle_msg] returns normally and no close is requested. *)
Theorem handle_msg_call_executor_raises
    (message : string) (msg_type request_id uri : pyval) (rest : list pyval)
    (cls msg : string) (log : transport_log) :
  deserialize message = Return (PList (msg_type :: request_id :: uri :: rest)) ->
  py_eq_int msg_type WAMPMsgType.CALL = true ->
  isinstance_int request_id = true ->
  isinstance_str uri = true ->
  rpc_handler (rpc_request_of session request_id uri rest)
    = Throw (Exc cls msg) ->
  handle message log =
    (Return PNone,
     (log ++ [ScheduleMsg
                (Dumps (PTuple [member WAMPMsgType.ERROR;
                                member WAMPMsgType.CALL;
                                request_id; PDict [];
                                PStr "wamp.error.exception_during_rpc_call";
                                PStr msg]))])%list).
Proof.
  intros Hdec Hcode Hid Huri Hraise.
  rewrite (handle_msg_dispatch _ _ _ _ Hdec). cbv zeta. pick_branch Hcode.
  unfold bind at 1. rewrite recv_rpc_call_fields.
  rewrite Hid, Huri. run. rewrite Hraise. simpl.
  rewrite (isinstance_int_encodable _ Hid). reflexivity.
Qed.

(** C6 (as the code has it).  When the executor returns a non-error value
    [r] that [json.dumps] can encode, on a CALL with an [int] [request_id]
    and a [str] [uri], exactly one envelope is sent:
    [[CALL_RESULT, request_id, r]].  A value the encoder refuses gets no
    envelope at all. *)
Theorem handle_msg_call_result
    (message : string) (msg_type request_id uri : pyval) (rest : list pyval)
    (r : pyval) (log : transport_log) :
  deserialize message = Return (PList (msg_type :: request_id :: uri :: rest)) ->
  py_eq_int msg_type WAMPMsgType.CALL = true ->
  isinstance_int request_id = true ->
  isinstance_str uri = true ->
  rpc_handler (rpc_request_of session request_id uri rest)
    = Return (RPCValue r) ->
  json_encodable r = true ->
  handle message log =
    (Return PNone,
     (log ++ [ScheduleMsg
                (Dumps (PTuple [member WAMPMsgType.CALL_RESULT;
                                request_id; r]))])%list).
Proof.
  intros Hdec Hcode Hid Huri Hret Henc.
  rewrite (handle_msg_dispatch _ _ _ _ Hdec). cbv zeta. pick_branch Hcode.
  unfold bind at 1. rewrite recv_rpc_call_fields.
  rewrite Hid, Huri. run. rewrite Hret. simpl.
  rewrite (isinstance_int_encodable _ Hid), Henc. reflexivity.
Qed.

(** C8 (the code at an EVENT or INVOCATION envelope).  The envelope
    [[msg_type, request_id, ...]] from the peer is answered with exactly one
    envelope, [[msg_type, request_id, {}, "wamp.error.not_authorized"]], which
    echoes the first two elements as received, and no close is requested.
    But handling does not complete: [handle_msg] awaits the [None] that the
    synchronous [do_unauthorized] returned and so, on every such envelope,
    ends by raising [TypeError] to its caller after the reply. *)
Theorem handle_msg_event_from_peer_unauthorized
    (message : string) (msg_type request_id : pyval) (rest : list pyval)
    (log : transport_log) :
  deserialize message = Return (PList (msg_type :: request_id :: rest)) ->
  py_eq_int msg_type WAMPMsgType.EVENT
  || py_eq_int msg_type WAMPMsgType.INVOCATION = true ->
  json_encodable request_id = true ->
  handle message log =
    (Throw (Exc "TypeError"
              "object NoneType can't be used in 'await' expression"),
     (log ++ [ScheduleMsg
                (Dumps (PTuple [msg_type; request_id; PDict [];
                                PStr "wamp.error.not_authorized"]))])%list).
Proof.
  intros Hdec Hcode Henc.
  rewrite (handle_msg_dispatch _ _ _ _ Hdec). cbv zeta.
  assert (Hmt : json_encodable msg_type = true).
  { apply orb_true_iff in Hcode.
    destruct Hcode as [H|H]; exact (py_eq_int_encodable _ _ H). }
  apply orb_true_iff in Hcode.
  destruct Hcode as [Hcode|Hcode]; pick_branch Hcode;
    rewrite ?orb_true_r; simpl orb; cbv iota;
    unfold do_unauthorized; run; rewrite Hmt, Henc; reflexivity.
Qed.

(** C3 (as the code has it).  On an UNSUBSCRIBE envelope
    [[UNSUBSCRIBE, request_id, subscription, ...]]: when the registry raises
    an exception the reply is [[ERROR, SUBSCRIBE, request_id, {},
    "wamp.error.exception_during_rpc_call", str(e)]], its second field being
    SUBSCRIBE's code 32; when the registry returns a typed error value the
    reply is [[ERROR, UNSUBSCRIBE, request_id, details, uri]], its second
    field being UNSUBSCRIBE's own code 34. *)
Theorem handle_msg_unsubscribe_error_codes
    (message : string) (msg_type request_id subscription : pyval)
    (rest : list pyval) (log : transport_log) :
  deserialize message
    = Return (PList (msg_type :: request_id :: subscription :: rest)) ->
  py_eq_int msg_type WAMPMsgType.UNSUBSCRIBE = true ->
  json_encodable request_id = true ->
  let request :=
    {| unsub_session := session; unsub_request_id := request_id;
       unsub_subscription := subscription |} in
  (forall cls msg,
     unsubscribe_handler request = Throw (Exc cls msg) ->
     handle message log =
       (Return PNone,
        (log ++ [ScheduleMsg
                   (Dumps (PTuple [PInt 8; PInt 32; request_id; PDict [];
                                   PStr "wamp.error.exception_during_rpc_call";
                                   PStr msg]))])%list))
  /\ (forall r,
        unsubscribe_handler request = Return (UnsubscribeError r) ->
        json_encodable (unsub_err_details r) = true ->
        json_encodable (unsub_err_uri r) = true ->
        handle message log =
          (Return PNone,
           (log ++ [ScheduleMsg
                      (Dumps (PTuple [PInt 8; PInt 34; request_id;
                                      unsub_err_details r;
                                      unsub_err_uri r]))])%list)).
Proof.
  intros Hdec Hcode Henc request. subst request.
  split; [intros cls msg Hout | intros r Hout Hdet Huri];
    rewrite (handle_msg_dispatch _ _ _ _ Hdec); cbv zeta; pick_branch Hcode;
    unfold recv_unsubscribe; run; rewrite Hout; simpl; rewrite Henc; simpl.
  - reflexivity.
  - rewrite Hdet, Huri. reflexivity.
Qed.

(** The request workflows only ever send their reply: whatever the envelope
    and the handler, they add no ABORT and no close request to the log. *)
Lemma recv_rpc_call_quiet (data : list pyval) :
  quiet (recv_rpc_call session rpc_handler data) (fun _ => True).
Proof.
  unfold recv_rpc_call.
  repeat (eapply quiet_bind; [solve [quiet_step] | intros ? _]).
  eapply quiet_bind with (P := fun _ => True); [quiet_step|intros _ _].
  eapply quiet_bind with (P := fun v => is_abort (Dumps v) = false).
  - apply quiet_try_except.
    + eapply quiet_bind; [apply quiet_call|].
      intros [r|v] _; apply quiet_ret; reflexivity.
    + intros e. apply quiet_ret. reflexivity.
  - intros v Hv. apply quiet_send. exact Hv.
Qed.

Lemma recv_subscribe_quiet (data : list pyval) :
  quiet (recv_subscribe session subscribe_handler data) (fun _ => True).
Proof.
  unfold recv_subscribe.
  repeat (eapply quiet_bind; [solve [quiet_step] | intros ? _]).
  eapply quiet_bind with (P := fun v => is_abort (Dumps v) = false).
  - apply quiet_try_except.
    + eapply quiet_bind; [apply quiet_call|].
      intros [r|v|cls] _;
        [apply quiet_ret; reflexivity | apply quiet_ret; reflexivity
        | apply quiet_raise].
    + intros e. apply quiet_ret. reflexivity.
  - intros v Hv. apply quiet_send. exact Hv.
Qed.

Lemma recv_unsubscribe_quiet (data : list pyval) :
  quiet (recv_unsubscribe session unsubscribe_handler data) (fun _ => True).
Proof.
  unfold recv_unsubscribe.
  repeat (eapply quiet_bind; [solve [quiet_step] | intros ? _]).
  eapply quiet_bind with (P := fun v => is_abort (Dumps v) = false).
  - apply quiet_try_except.
    + eapply quiet_bind; [apply quiet_call|].
      intros [r|v] _; apply quiet_ret; reflexivity.
    + intros e. apply quiet_ret. reflexivity.
  - intros v Hv. apply quiet_send. exact Hv.
Qed.

(** C2 (as the code has it).  [handle_msg] keeps no record of whether HELLO
    has arrived.  Whatever the transport log so far, in particular on a
    fresh session, a CALL, SUBSCRIBE or UNSUBSCRIBE envelope is handed to its
    request workflow, and handling it sends no ABORT and requests no close. *)
Theorem handle_msg_request_needs_no_hello
    (message : string) (msg_type : pyval) (rest : list pyval)
    (log : transport_log) :
  deserialize message = Return (PList (msg_type :: rest)) ->
  py_eq_int msg_type WAMPMsgType.CALL
  || py_eq_int msg_type WAMPMsgType.SUBSCRIBE
  || py_eq_int msg_type WAMPMsgType.UNSUBSCRIBE = true ->
  handle message log =
    ((if py_eq_int msg_type WAMPMsgType.CALL
      then recv_rpc_call session rpc_handler (msg_type :: rest)
      else if py_eq_int msg_type WAMPMsgType.SUBSCRIBE
      then recv_subscribe session subscribe_handler (msg_type :: rest)
      else recv_unsubscribe session unsubscribe_handler (msg_type :: rest)) ;;
     ret PNone) log
  /\ exists r evs,
       handle message log = (r, (log ++ evs)%list)
       /\ existsb violation_call evs = false.
Proof.
  intros Hdec Hcode.
  rewrite (handle_msg_dispatch _ _ _ _ Hdec). cbv zeta.
  repeat (apply orb_true_iff in Hcode; destruct Hcode as [Hcode|Hcode]);
    pick_branch Hcode; (split; [reflexivity|]); apply quiet_run with (P := fun _ => True);
    (eapply quiet_bind; [|intros ? _; apply quiet_ret; exact I]).
  - apply recv_rpc_call_quiet.
  - apply recv_subscribe_quiet.
  - apply recv_unsubscribe_quiet.
Qed.

End Dispatch.

(** ** Outbound event delivery *)

(** C7 (as the code has it).  [publish_event(subscription, event)] hands one
    envelope to the encoder, a list that begins [[EVENT, subscription,
    event.publication, {}]]: the fourth field is always the empty mapping,
    [event.details] is not read.  Then, if [event.kwargs] is non-empty,
    [event.args] and [event.kwargs] follow in that order; else if
    [event.args] is non-empty, [event.args] alone follows; else nothing
    follows.  The envelope is the one transport call made; when a field
    cannot be encoded, [json.dumps] raises and nothing is sent. *)
Theorem publish_event_envelope
    (subscription : pyval) (event : WAMPEvent) (log : transport_log) :
  let fields :=
    ([PInt 36; subscription; publication event; PDict []]
     ++ (if truthy (kwargs event) then [args event; kwargs event]
         else if truthy (args event) then [args event]
         else []))%list in
  publish_event subscription event log =
    if json_encodable (PList fields)
    then (Return PNone, (log ++ [ScheduleMsg (Dumps (PList fields))])%list)
    else (Throw (not_serializable (PList fields)), log).
Proof.
  unfold publish_event. run.
  destruct (truthy (kwargs event)); [|destruct (truthy (args event))]; simpl;
    match goal with
    | |- context [if ?b then _ else _] => destruct b; reflexivity
    end.
Qed.

(** In the test of an [if], a list, a tuple or a dict is true exactly when it
    is not empty. *)
Lemma truthy_nonempty (l : list pyval) (d : list (string * pyval)) :
  truthy (PList l) = negb (Nat.eqb (List.length l) 0)
  /\ truthy (PTuple l) = negb (Nat.eqb (List.length l) 0)
  /\ truthy (PDict d) = negb (Nat.eqb (List.length d) 0).
Proof. destruct l, d; repeat split. Qed.

(** ** The sample deployment, run *)

(** A text that decodes to a mapping: [handle_msg] raises and the transport
    sees nothing. *)
Lemma handle_msg_malformed_raises_witness :
  decodes_to_list (Sample.loads "{}") = false
  /\ Sample.handle "{}" []
     = (Throw (Exc "Exception" "incoming data is no list"), []).
Proof.
  split; [reflexivity|].
  apply (handle_msg_malformed_raises Sample.session None Sample.on_open
           Sample.rpc Sample.subscribe Sample.unsubscribe Sample.loads
           "{}" []).
  reflexivity.
Defined.

(** C1 fails as stated: neither a text that is no JSON nor one that decodes
    to a mapping gets an ABORT or a close request; both end in an exception
    with the transport untouched. *)
Lemma handle_msg_malformed_sends_no_abort :
  Sample.handle "hello" []
    = (Throw (Exc "JSONDecodeError" "Expecting value: line 1 column 1 (char 0)"),
       [])
  /\ Sample.handle "{}" []
     = (Throw (Exc "Exception" "incoming data is no list"), [])
  /\ (forall abort,
        snd (Sample.handle "hello" []) <> [ScheduleMsg abort; Close])
  /\ (forall abort,
        snd (Sample.handle "{}" []) <> [ScheduleMsg abort; Close]).
Proof.
  split; [reflexivity|]. split; [reflexivity|].
  split; intros abort; vm_compute; discriminate.
Qed.

(** A CALL is the first envelope of a fresh session and is answered. *)
Lemma handle_msg_request_needs_no_hello_witness :
  Sample.loads Sample.call_text
    = Return (PList [PInt 48; PInt 7; PStr "math.add";
                     PList [PInt 2; PInt 3]])
  /\ exists r evs,
       Sample.handle Sample.call_text [] = (r, evs)
       /\ existsb violation_call evs = false.
Proof.
  split; [reflexivity|].
  apply (handle_msg_request_needs_no_hello Sample.session None Sample.on_open
           Sample.rpc Sample.subscribe Sample.unsubscribe Sample.loads
           Sample.call_text (PInt 48)
           [PInt 7; PStr "math.add"; PList [PInt 2; PInt 3]] []);
    reflexivity.
Defined.

(** C2 fails as stated: on a session that has received no HELLO (nothing has
    been sent or received yet), a CALL is executed and answered with its
    result; there is no ABORT and no close request. *)
Lemma handle_msg_call_before_hello_is_served :
  Sample.handle Sample.call_text []
    = (Return PNone, [ScheduleMsg (Dumps (PTuple [PInt 50; PInt 7; PInt 5]))])
  /\ existsb violation_call (snd (Sample.handle Sample.call_text [])) = false.
Proof. split; reflexivity. Qed.

(** Both error replies to UNSUBSCRIBE: the registry raising on subscription
    43, and returning an error response on subscription 42. *)
Lemma handle_msg_unsubscribe_error_codes_witness :
  Sample.handle "[34, 6, 43]" []
    = (Return PNone,
       [ScheduleMsg
          (Dumps (PTuple [PInt 8; PInt 32; PInt 6; PDict [];
                          PStr "wamp.error.exception_during_rpc_call";
                          PStr "43"]))])
  /\ Sample.handle "[34, 5, 42]" []
     = (Return PNone,
        [ScheduleMsg
           (Dumps (PTuple [PInt 8; PInt 34; PInt 5; PDict [];
                           PStr "wamp.error.no_such_subscription"]))]).
Proof.
  split.
  - apply (proj1 (handle_msg_unsubscribe_error_codes Sample.session None
                    Sample.on_open Sample.rpc Sample.subscribe
                    Sample.unsubscribe Sample.loads
                    "[34, 6, 43]" (PInt 34) (PInt 6) (PInt 43) [] []
                    eq_refl eq_refl eq_refl) "KeyError" "43").
    reflexivity.
  - apply (proj2 (handle_msg_unsubscribe_error_codes Sample.session None
                    Sample.on_open Sample.rpc Sample.subscribe
                    Sample.unsubscribe Sample.loads
                    "[34, 5, 42]" (PInt 34) (PInt 5) (PInt 42) [] []
                    eq_refl eq_refl eq_refl)
             {| unsub_err_uri := PStr "wamp.error.no_such_subscription";
                unsub_err_details := PDict [] |});
      reflexivity.
Defined.

(** C3 fails as stated: when the registry returns a typed error value, the
    second field of the error envelope is 34, not 32. *)
Lemma handle_msg_unsubscribe_typed_error_has_code_34 :
  exists fields,
    Sample.handle "[34, 5, 42]" []
      = (Return PNone, [ScheduleMsg (Dumps (PTuple fields))])
    /\ nth_error fields 1 = Some (PInt 34)
    /\ nth_error fields 1 <> Some (PInt 32).
Proof.
  eexists. split; [reflexivity|]. split; [reflexivity|]. discriminate.
Qed.

(** A CALL whose [request_id] is a string. *)
Lemma handle_msg_call_wrong_types_raises_witness :
  Sample.loads Sample.untyped_call_text
    = Return (PList [PInt 48; PStr "seven"; PStr "math.add"])
  /\ isinstance_int (PStr "seven") = false
  /\ Sample.handle Sample.untyped_call_text []
     = (Throw (Exc "Exception" ""), []).
Proof.
  split; [reflexivity|]. split; [reflexivity|].
  apply (handle_msg_call_wrong_types_raises Sample.session None Sample.on_open
           Sample.rpc Sample.subscribe Sample.unsubscribe Sample.loads
           Sample.untyped_call_text (PInt 48) (PStr "seven")
           (PStr "math.add") [] []);
    [reflexivity | reflexivity | left; reflexivity].
Defined.

(** [math.div] divides by zero: the fault is reported, the session goes on. *)
Lemma handle_msg_call_executor_raises_witness :
  Sample.rpc (rpc_request_of Sample.session (PInt 8) (PStr "math.div")
                [PList [PInt 1; PInt 0]])
    = Throw (Exc "ZeroDivisionError" "division by zero")
  /\ Sample.handle Sample.failing_call_text []
     = (Return PNone,
        [ScheduleMsg
           (Dumps (PTuple [PInt 8; PInt 48; PInt 8; PDict [];
                           PStr "wamp.error.exception_during_rpc_call";
                           PStr "division by zero"]))]).
Proof.
  split; [reflexivity|].
  apply (handle_msg_call_executor_raises Sample.session None Sample.on_open
           Sample.rpc Sample.subscribe Sample.unsubscribe Sample.loads
           Sample.failing_call_text (PInt 48) (PInt 8) (PStr "math.div")
           [PList [PInt 1; PInt 0]] "ZeroDivisionError" "division by zero" []);
    reflexivity.
Defined.

(** The CALL [[48, 7, "math.add", [2, 3]]], whose executor returns 5, yields
    exactly [[CALL_RESULT, 7, 5]]. *)
Lemma handle_msg_call_result_witness :
  Sample.loads Sample.call_text
    = Return (PList [PInt 48; PInt 7; PStr "math.add";
                     PList [PInt 2; PInt 3]])
  /\ Sample.rpc (rpc_request_of Sample.session (PInt 7) (PStr "math.add")
                   [PList [PInt 2; PInt 3]])
     = Return (RPCValue (PInt 5))
  /\ Sample.handle Sample.call_text []
     = (Return PNone,
        [ScheduleMsg (Dumps (PTuple [PInt 50; PInt 7; PInt 5]))]).
Proof.
  split; [reflexivity|]. split; [reflexivity|].
  apply (handle_msg_call_result Sample.session None Sample.on_open
           Sample.rpc Sample.subscribe Sample.unsubscribe Sample.loads
           Sample.call_text (PInt 48) (PInt 7) (PStr "math.add")
           [PList [PInt 2; PInt 3]] (PInt 5) []);
    reflexivity.
Defined.

(** C6 fails as stated: [clock.now] returns a [datetime], a non-error value,
    on a CALL with request id 11 and a [str] uri; no envelope is sent and the
    encoder's [TypeError] leaves [handle_msg]. *)
Lemma handle_msg_call_result_not_sent_for_datetime :
  Scenario.loads (Scenario.call_text "clock.now" "11")
    = Return (PList [PInt 48; PInt 11; PStr "clock.now"])
  /\ Scenario.rpc (rpc_request_of Sample.session (PInt 11) (PStr "clock.now") [])
     = Return (RPCValue (PObject "datetime"))
  /\ Scenario.handle (Scenario.call_text "clock.now" "11") []
     = (Throw (Exc "TypeError"
                 "Object of type datetime is not JSON serializable"),
        [])
  /\ count_sends (snd (Scenario.handle (Scenario.call_text "clock.now" "11") []))
     = 0%nat.
Proof. split; [|split; [|split]]; reflexivity. Qed.

(** The three shapes of an event envelope: with keyword arguments, with
    positional arguments only, with neither. *)
Example publish_event_shapes :
  snd (publish_event (PInt 42)
         {| publication := PInt 77; details := PDict [];
            args := PList [PInt 1]; kwargs := PDict [("k", PStr "v")] |} [])
    = [ScheduleMsg
         (Dumps (PList [PInt 36; PInt 42; PInt 77; PDict [];
                        PList [PInt 1]; PDict [("k", PStr "v")]]))]
  /\ snd (publish_event (PInt 42)
            {| publication := PInt 77; details := PDict [];
               args := PList [PInt 1]; kwargs := PDict [] |} [])
     = [ScheduleMsg
          (Dumps (PList [PInt 36; PInt 42; PInt 77; PDict [];
                         PList [PInt 1]]))]
  /\ snd (publish_event (PInt 42)
            {| publication := PInt 77; details := PDict [];
               args := PTuple []; kwargs := PDict [] |} [])
     = [ScheduleMsg (Dumps (PList [PInt 36; PInt 42; PInt 77; PDict []]))].
Proof. split; [|split]; reflexivity. Qed.

(** C7 fails as stated: an event whose [details] is not empty is delivered
    with the empty mapping as fourth field. *)
Lemma publish_event_drops_event_details :
  let event :=
    {| publication := PInt 77; details := PDict [("publisher", PInt 1)];
       args := PTuple []; kwargs := PDict [] |} in
  exists fields,
    publish_event (PInt 42) event []
      = (Return PNone, [ScheduleMsg (Dumps (PList fields))])
    /\ nth_error fields 3 = Some (PDict [])
    /\ nth_error fields 3 <> Some (details event).
Proof.
  intros event. eexists. split; [reflexivity|]. split; [reflexivity|].
  discriminate.
Qed.

(** The peer sends [[36, 9]] and [[68, 9]]. *)
Lemma handle_msg_event_from_peer_unauthorized_witness :
  Sample.loads "[36, 9]" = Return (PList [PInt 36; PInt 9])
  /\ Sample.handle "[36, 9]" []
     = (Throw (Exc "TypeError"
                 "object NoneType can't be used in 'await' expression"),
        [ScheduleMsg
           (Dumps (PTuple [PInt 36; PInt 9; PDict [];
                           PStr "wamp.error.not_authorized"]))])
  /\ snd (Sample.handle "[68, 9]" [])
     = [ScheduleMsg
          (Dumps (PTuple [PInt 68; PInt 9; PDict [];
                          PStr "wamp.error.not_authorized"]))].
Proof.
  split; [reflexivity|]. split.
  - apply (handle_msg_event_from_peer_unauthorized Sample.session None
             Sample.on_open Sample.rpc Sample.subscribe Sample.unsubscribe
             Sample.loads "[36, 9]" (PInt 36) (PInt 9) [] []);
      reflexivity.
  - reflexivity.
Defined.

(** The peer sends [[99, 1]]: 99 is no message type. *)
Lemma handle_msg_unknown_type_aborts_then_closes_witness :
  Sample.loads "[99, 1]" = Return (PList [PInt 99; PInt 1])
  /\ dispatched (PInt 99) = false
  /\ Sample.handle "[99, 1]" []
     = (Return PNone,
        [ScheduleMsg
           (Dumps (PTuple [PInt 3;
                           PDict [("message",
                                   PStr "Unknown WAMP message type.")];
                           PStr "wamp.error.protocol_violation"]));
         Close]).
Proof.
  split; [reflexivity|]. split; [reflexivity|].
  apply (handle_msg_unknown_type_aborts_then_closes Sample.session None
           Sample.on_open Sample.rpc Sample.subscribe Sample.unsubscribe
           Sample.loads "[99, 1]" (PInt 99) [PInt 1] []);
    reflexivity.
Defined.

(** The texts [[]], [[16]] and [[36]] all end in [IndexError]. *)
Lemma handle_msg_short_envelope_index_error_witness :
  Sample.handle "[]" []
    = (Throw (Exc "IndexError" "list index out of range"), [])
  /\ Sample.handle "[16]" []
     = (Throw (Exc "IndexError" "list index out of range"), [])
  /\ Sample.handle "[36]" []
     = (Throw (Exc "IndexError" "list index out of range"), []).
Proof.
  split; [|split].
  - apply (handle_msg_short_envelope_index_error Sample.session None
             Sample.on_open Sample.rpc Sample.subscribe Sample.unsubscribe
             Sample.loads "[]" [] []); [reflexivity | left; reflexivity].
  - apply (handle_msg_short_envelope_index_error Sample.session None
             Sample.on_open Sample.rpc Sample.subscribe Sample.unsubscribe
             Sample.loads "[16]" [PInt 16] []);
      [reflexivity | right; exists (PInt 16); split; reflexivity].
  - apply (handle_msg_short_envelope_index_error Sample.session None
             Sample.on_open Sample.rpc Sample.subscribe Sample.unsubscribe
             Sample.loads "[36]" [PInt 36] []);
      [reflexivity | right; exists (PInt 36); split; reflexivity].
Defined.

(** ** Beyond the claims: the dispatcher never reads the log *)

Lemma framed_ret {A} (a : A) : framed (ret a).
Proof. intros log. unfold ret. simpl. rewrite app_nil_r. reflexivity. Qed.

Lemma framed_raise {A} (e : pyexc) : framed (@raise A e).
Proof. intros log. unfold raise. simpl. rewrite app_nil_r. reflexivity. Qed.

Lemma framed_bind {A B} (c : M A) (k : A -> M B) :
  framed c -> (forall a, framed (k a)) -> framed (bind c k).
Proof.
  intros Hc Hk log. unfold bind. rewrite (Hc log).
  destruct (c []) as [[a|e] evs] eqn:Hrun; simpl.
  - rewrite (Hk a (log ++ evs)%list), (Hk a evs). simpl.
    rewrite app_assoc. reflexivity.
  - reflexivity.
Qed.

Lemma framed_try_except {A} (body : M A) (handler : pyexc -> M A) :
  framed body -> (forall e, framed (handler e)) ->
  framed (try_except body handler).
Proof.
  intros Hb Hh log. unfold try_except. rewrite (Hb log).
  destruct (body []) as [[a|[cls msg|cls msg]] evs] eqn:Hrun; simpl;
    try reflexivity.
  rewrite (Hh (Exc cls msg) (log ++ evs)%list), (Hh (Exc cls msg) evs). simpl.
  rewrite app_assoc. reflexivity.
Qed.

Lemma framed_call {A} (o : outcome A) : framed (call o).
Proof. destruct o; [apply framed_ret | apply framed_raise]. Qed.

Lemma framed_index (items : list pyval) (i : nat) : framed (index items i).
Proof.
  unfold index. destruct (nth_error items i);
    [apply framed_ret | apply framed_raise].
Qed.

Lemma framed_await (v : pyval) : framed (await v).
Proof. destruct v; first [apply framed_ret | apply framed_raise]. Qed.

Lemma framed_serialize (v : pyval) : framed (serialize v).
Proof.
  unfold serialize. destruct (json_encodable v);
    [apply framed_ret | apply framed_raise].
Qed.

Lemma framed_schedule_msg (text : json_text) : framed (schedule_msg text).
Proof. intros log. reflexivity. Qed.

Lemma framed_close : framed close.
Proof. intros log. reflexivity. Qed.

(** One step of a proof that a method is [framed]. *)
Ltac framed_step :=
  first [ apply framed_ret | apply framed_raise | apply framed_call
        | apply framed_index | apply framed_await | apply framed_serialize
        | apply framed_schedule_msg | apply framed_close
        | apply framed_bind; [|intros ?]
        | apply framed_try_except; [|intros ?]
        | match goal with
          | |- framed (if ?b then _ else _) => destruct b
          | |- framed (match ?x with _ => _ end) => destruct x
          | |- framed (let _ := _ in _) => cbv zeta
          end ].

Section Coverage.

Variable session : WAMPSession.
Variable agent_name_arg : option string.
Variable open_handler : WAMPSession -> outcome pyval.
Variable rpc_handler : WAMPRPCRequest -> outcome rpc_result.
Variable subscribe_handler : WAMPSubscribeRequest -> outcome subscribe_result.
Variable unsubscribe_handler :
  WAMPUnsubscribeRequest -> outcome unsubscribe_result.
Variable deserialize : string -> outcome pyval.

Local Notation handle :=
  (handle_msg session agent_name_arg open_handler rpc_handler
     subscribe_handler unsubscribe_handler deserialize).

(** X1.  A HELLO envelope, whatever follows its first element, is answered
    with one WELCOME carrying the session's id, the two roles and the agent
    name; then the open hook is called with the session.  If the hook
    returns, [handle_msg] returns; if it raises, the exception leaves
    [handle_msg], after the WELCOME. *)
Theorem handle_msg_hello_welcomes
    (message : string) (msg_type : pyval) (rest : list pyval)
    (log : transport_log) :
  deserialize message = Return (PList (msg_type :: rest)) ->
  py_eq_int msg_type WAMPMsgType.HELLO = true ->
  handle message log =
    (match open_handler session with
     | Return _ => Return PNone
     | Throw e => Throw e
     end,
     (log ++ [ScheduleMsg
                (Dumps (welcome_envelope session
                          (agent_name agent_name_arg)))])%list).
Proof.
  intros Hdec Hcode.
  rewrite (handle_msg_dispatch _ _ _ _ _ _ _ _ _ _ _ Hdec). cbv zeta.
  rewrite Hcode. unfold do_welcome. run.
  destruct (open_handler session); reflexivity.
Qed.

(** X2.  A PUBLISH or PUBLISHED envelope [[msg_type, request_id, ...]] is
    answered with [[ERROR, request_id, {}, "wamp.error.not_implemented"]], an
    ERROR envelope of four fields that does not name the rejected message
    type; [handle_msg] returns and no close is requested. *)
Theorem handle_msg_publish_not_implemented
    (message : string) (msg_type request_id : pyval) (rest : list pyval)
    (log : transport_log) :
  deserialize message = Return (PList (msg_type :: request_id :: rest)) ->
  py_eq_int msg_type WAMPMsgType.PUBLISH
  || py_eq_int msg_type WAMPMsgType.PUBLISHED = true ->
  json_encodable request_id = true ->
  handle message log =
    (Return PNone,
     (log ++ [ScheduleMsg
                (Dumps (PTuple [PInt 8; request_id; PDict [];
                                PStr "wamp.error.not_implemented"]))])%list).
Proof.
  intros Hdec Hcode Henc.
  rewrite (handle_msg_dispatch _ _ _ _ _ _ _ _ _ _ _ Hdec). cbv zeta.
  apply orb_true_iff in Hcode.
  destruct Hcode as [Hcode|Hcode]; pick_branch Hcode;
    rewrite ?orb_true_r; simpl orb; cbv iota;
    unfold do_unimplemented; run; rewrite Henc; reflexivity.
Qed.

(** X3.  A SUBSCRIBE envelope [[SUBSCRIBE, request_id, options, uri, ...]]
    whose registry returns a response with subscription [s] is answered with
    [[SUBSCRIBED, request_id, s]].  Unlike CALL, the workflow checks no field
    type: [request_id], [options] and [uri] reach the registry as received. *)
Theorem handle_msg_subscribe_subscribed
    (message : string) (msg_type request_id options uri s : pyval)
    (rest : list pyval) (log : transport_log) :
  deserialize message
    = Return (PList (msg_type :: request_id :: options :: uri :: rest)) ->
  py_eq_int msg_type WAMPMsgType.SUBSCRIBE = true ->
  subscribe_handler
    {| sub_session := session; sub_request_id := request_id;
       sub_options := options; sub_uri := uri |}
    = Return (SubscribeResponse s) ->
  json_encodable request_id = true ->
  json_encodable s = true ->
  handle message log =
    (Return PNone,
     (log ++ [ScheduleMsg (Dumps (PTuple [PInt 33; request_id; s]))])%list).
Proof.
  intros Hdec Hcode Hout Hid Hs.
  rewrite (handle_msg_dispatch _ _ _ _ _ _ _ _ _ _ _ Hdec). cbv zeta.
  pick_branch Hcode. unfold recv_subscribe. run. rewrite Hout. simpl.
  rewrite Hid, Hs. reflexivity.
Qed.

(** X4.  When the subscribe registry returns an error response, the reply is
    [[ERROR, SUBSCRIBE, request_id, details, uri]] with the response's own
    details and error uri. *)
Theorem handle_msg_subscribe_typed_error
    (message : string) (msg_type request_id options uri : pyval)
    (rest : list pyval) (r : WAMPSubscribeErrorResponse)
    (log : transport_log) :
  deserialize message
    = Return (PList (msg_type :: request_id :: options :: uri :: rest)) ->
  py_eq_int msg_type WAMPMsgType.SUBSCRIBE = true ->
  subscribe_handler
    {| sub_session := session; sub_request_id := request_id;
       sub_options := options; sub_uri := uri |}
    = Return (SubscribeError r) ->
  json_encodable request_id = true ->
  json_encodable (sub_err_details r) = true ->
  json_encodable (sub_err_uri r) = true ->
  handle message log =
    (Return PNone,
     (log ++ [ScheduleMsg
                (Dumps (PTuple [PInt 8; PInt 32; request_id;
                                sub_err_details r; sub_err_uri r]))])%list).
Proof.
  intros Hdec Hcode Hout Hid Hdet Huri.
  rewrite (handle_msg_dispatch _ _ _ _ _ _ _ _ _ _ _ Hdec). cbv zeta.
  pick_branch Hcode. unfold recv_subscribe. run. rewrite Hout. simpl.
  rewrite Hid, Hdet, Huri. reflexivity.
Qed.

(** X5.  When the subscribe registry raises an exception, or returns an
    object that is no error response and has no [subscription] attribute,
    the reply is [[ERROR, SUBSCRIBE, request_id, {},
    "wamp.error.exception_during_rpc_call", text]], where [text] is
    [str(e)] of the exception, respectively of the [AttributeError];
    [handle_msg] returns and no close is requested. *)
Theorem handle_msg_subscribe_fault
    (message : string) (msg_type request_id options uri : pyval)
    (rest : list pyval) (text : string) (log : transport_log) :
  deserialize message
    = Return (PList (msg_type :: request_id :: options :: uri :: rest)) ->
  py_eq_int msg_type WAMPMsgType.SUBSCRIBE = true ->
  (let request :=
     {| sub_session := session; sub_request_id := request_id;
        sub_options := options; sub_uri := uri |} in
   (exists cls, subscribe_handler request = Throw (Exc cls text))
   \/ (exists cls,
         subscribe_handler request = Return (SubscribeOther cls)
         /\ text = "'" ++ cls ++ "' object has no attribute 'subscription'")) ->
  json_encodable request_id = true ->
  handle message log =
    (Return PNone,
     (log ++ [ScheduleMsg
                (Dumps (PTuple [PInt 8; PInt 32; request_id; PDict [];
                                PStr "wamp.error.exception_during_rpc_call";
                                PStr text]))])%list).
Proof.
  intros Hdec Hcode Hout Hid.
  rewrite (handle_msg_dispatch _ _ _ _ _ _ _ _ _ _ _ Hdec). cbv zeta.
  pick_branch Hcode. unfold recv_subscribe. run.
  destruct Hout as [(cls & Hout) | (cls & Hout & ->)];
    rewrite Hout; simpl; rewrite Hid; reflexivity.
Qed.

(** X6.  An UNSUBSCRIBE envelope [[UNSUBSCRIBE, request_id, subscription,
    ...]] whose registry returns anything but an error response is answered
    with [[UNSUBSCRIBED, request_id]]; the returned value is not looked at. *)
Theorem handle_msg_unsubscribe_unsubscribed
    (message : string) (msg_type request_id subscription v : pyval)
    (rest : list pyval) (log : transport_log) :
  deserialize message
    = Return (PList (msg_type :: request_id :: subscription :: rest)) ->
  py_eq_int msg_type WAMPMsgType.UNSUBSCRIBE = true ->
  unsubscribe_handler
    {| unsub_session := session; unsub_request_id := request_id;
       unsub_subscription := subscription |}
    = Return (UnsubscribeOther v) ->
  json_encodable request_id = true ->
  handle message log =
    (Return PNone,
     (log ++ [ScheduleMsg (Dumps (PTuple [PInt 35; request_id]))])%list).
Proof.
  intros Hdec Hcode Hout Hid.
  rewrite (handle_msg_dispatch _ _ _ _ _ _ _ _ _ _ _ Hdec). cbv zeta.
  pick_branch Hcode. unfold recv_unsubscribe. run. rewrite Hout. simpl.
  rewrite Hid. reflexivity.
Qed.

(** The three ways a CALL with well-typed fields can go on after the type
    check, shared by the statements below. *)
Lemma handle_msg_call_typed
    (message : string) (msg_type request_id uri : pyval) (rest : list pyval)
    (log : transport_log) :
  deserialize message = Return (PList (msg_type :: request_id :: uri :: rest)) ->
  py_eq_int msg_type WAMPMsgType.CALL = true ->
  isinstance_int request_id = true ->
  isinstance_str uri = true ->
  handle message log =
    match rpc_handler (rpc_request_of session request_id uri rest) with
    | Return (RPCValue v) =>
        let reply := PTuple [PInt 50; request_id; v] in
        if json_encodable v
        then (Return PNone, (log ++ [ScheduleMsg (Dumps reply)])%list)
        else (Throw (not_serializable reply), log)
    | Return (RPCError r) =>
        let reply := PTuple [PInt 8; PInt 48; request_id; PDict [];
                             rpc_err_uri r; rpc_err_args r;
                             rpc_err_kwargs r] in
        if json_encodable reply
        then (Return PNone, (log ++ [ScheduleMsg (Dumps reply)])%list)
        else (Throw (not_serializable reply), log)
    | Throw (Exc cls msg) =>
        (Return PNone,
         (log ++ [ScheduleMsg
                    (Dumps (PTuple [PInt 8; PInt 48; request_id; PDict [];
                                    PStr "wamp.error.exception_during_rpc_call";
                                    PStr msg]))])%list)
    | Throw (BaseExc cls msg) => (Throw (BaseExc cls msg), log)
    end.
Proof.
  intros Hdec Hcode Hid Huri.
  rewrite (handle_msg_dispatch _ _ _ _ _ _ _ _ _ _ _ Hdec). cbv zeta.
  pick_branch Hcode. unfold bind at 1.
  rewrite recv_rpc_call_fields. rewrite Hid, Huri. run.
  pose proof (isinstance_int_encodable _ Hid) as Henc.
  destruct (rpc_handler (rpc_request_of session request_id uri rest))
    as [[r|v]|[cls msg|cls msg]]; simpl; rewrite ?Henc; simpl.
  - match goal with
    | |- context [if ?b then _ else _] => destruct b; reflexivity
    end.
  - destruct (json_encodable v); reflexivity.
  - reflexivity.
  - reflexivity.
Qed.

(** X7.  When the executor returns an error response on a well-typed CALL,
    the reply is [[ERROR, CALL, request_id, {}, uri, args, kwargs]] with the
    response's error uri, args and kwargs; the fourth field is the empty
    mapping whatever the response's [details]. *)
Theorem handle_msg_call_typed_error
    (message : string) (msg_type request_id uri : pyval) (rest : list pyval)
    (r : WAMPRPCErrorResponse) (log : transport_log) :
  deserialize message = Return (PList (msg_type :: request_id :: uri :: rest)) ->
  py_eq_int msg_type WAMPMsgType.CALL = true ->
  isinstance_int request_id = true ->
  isinstance_str uri = true ->
  rpc_handler (rpc_request_of session request_id uri rest)
    = Return (RPCError r) ->
  json_encodable (rpc_err_uri r) = true ->
  json_encodable (rpc_err_args r) = true ->
  json_encodable (rpc_err_kwargs r) = true ->
  handle message log =
    (Return PNone,
     (log ++ [ScheduleMsg
                (Dumps (PTuple [PInt 8; PInt 48; request_id; PDict [];
                                rpc_err_uri r; rpc_err_args r;
                                rpc_err_kwargs r]))])%list).
Proof.
  intros Hdec Hcode Hid Huri Hout Heu Hea Hek.
  rewrite (handle_msg_call_typed _ _ _ _ _ _ Hdec Hcode Hid Huri), Hout.
  cbv zeta. simpl json_encodable.
  rewrite (isinstance_int_encodable _ Hid), Heu, Hea, Hek. reflexivity.
Qed.

(** X14.  An exception of the executor that derives from [BaseException]
    only is not turned into an error reply: it leaves [handle_msg] and
    nothing is sent. *)
Theorem handle_msg_call_base_exception_propagates
    (message : string) (msg_type request_id uri : pyval) (rest : list pyval)
    (cls msg : string) (log : transport_log) :
  deserialize message = Return (PList (msg_type :: request_id :: uri :: rest)) ->
  py_eq_int msg_type WAMPMsgType.CALL = true ->
  isinstance_int request_id = true ->
  isinstance_str uri = true ->
  rpc_handler (rpc_request_of session request_id uri rest)
    = Throw (BaseExc cls msg) ->
  handle message log = (Throw (BaseExc cls msg), log).
Proof.
  intros Hdec Hcode Hid Huri Hout.
  rewrite (handle_msg_call_typed _ _ _ _ _ _ Hdec Hcode Hid Huri), Hout.
  reflexivity.
Qed.

(** X15.  When the executor returns a value [json.dumps] cannot encode, the
    [TypeError] of the encoder leaves [handle_msg]: the encoding happens
    after the [try] block, so there is no error reply and nothing is sent. *)
Theorem handle_msg_call_unencodable_result_raises
    (message : string) (msg_type request_id uri : pyval) (rest : list pyval)
    (v : pyval) (log : transport_log) :
  deserialize message = Return (PList (msg_type :: request_id :: uri :: rest)) ->
  py_eq_int msg_type WAMPMsgType.CALL = true ->
  isinstance_int request_id = true ->
  isinstance_str uri = true ->
  rpc_handler (rpc_request_of session request_id uri rest)
    = Return (RPCValue v) ->
  json_encodable v = false ->
  handle message log =
    (Throw (not_serializable (PTuple [PInt 50; request_id; v])), log).
Proof.
  intros Hdec Hcode Hid Huri Hout Hv.
  rewrite (handle_msg_call_typed _ _ _ _ _ _ Hdec Hcode Hid Huri), Hout.
  cbv zeta. rewrite Hv. reflexivity.
Qed.

(** X17.  A CALL reads its first five fields only: two CALL envelopes that
    agree on them are handled alike, whatever follows. *)
Theorem handle_msg_call_ignores_trailing_fields
    (message1 message2 : string)
    (msg_type request_id uri call_args call_kwargs : pyval)
    (extra1 extra2 : list pyval) (log : transport_log) :
  deserialize message1
    = Return (PList (msg_type :: request_id :: uri :: call_args
                       :: call_kwargs :: extra1)) ->
  deserialize message2
    = Return (PList (msg_type :: request_id :: uri :: call_args
                       :: call_kwargs :: extra2)) ->
  py_eq_int msg_type WAMPMsgType.CALL = true ->
  handle message1 log = handle message2 log.
Proof.
  intros Hdec1 Hdec2 Hcode.
  rewrite (handle_msg_dispatch _ _ _ _ _ _ _ _ _ _ _ Hdec1).
  rewrite (handle_msg_dispatch _ _ _ _ _ _ _ _ _ _ _ Hdec2). cbv zeta.
  pick_branch Hcode. unfold bind at 1 2.
  rewrite !recv_rpc_call_fields. reflexivity.
Qed.

(** X8.  A request envelope shorter than its workflow reads ends in
    [IndexError] before the handler is consulted, and nothing is sent: a
    CALL or an UNSUBSCRIBE of fewer than three elements, a SUBSCRIBE of
    fewer than four. *)
Theorem handle_msg_short_request_index_error
    (message : string) (msg_type : pyval) (rest : list pyval)
    (log : transport_log) :
  deserialize message = Return (PList (msg_type :: rest)) ->
  (py_eq_int msg_type WAMPMsgType.CALL = true /\ (List.length rest < 2)%nat)
  \/ (py_eq_int msg_type WAMPMsgType.SUBSCRIBE = true
      /\ (List.length rest < 3)%nat)
  \/ (py_eq_int msg_type WAMPMsgType.UNSUBSCRIBE = true
      /\ (List.length rest < 2)%nat) ->
  handle message log =
    (Throw (Exc "IndexError" "list index out of range"), log).
Proof.
  intros Hdec Hshape.
  rewrite (handle_msg_dispatch _ _ _ _ _ _ _ _ _ _ _ Hdec). cbv zeta.
  destruct Hshape as [[Hcode Hlen] | [[Hcode Hlen] | [Hcode Hlen]]];
    pick_branch Hcode;
    unfold recv_rpc_call, recv_subscribe, recv_unsubscribe;
    destruct rest as [|a [|b [|c rest]]]; simpl in Hlen; try lia;
    reflexivity.
Qed.

End Coverage.

(** ** Beyond the claims: the builders *)

(** A value that is false in an [if] can always be encoded. *)
Lemma falsy_encodable (v : pyval) : truthy v = false -> json_encodable v = true.
Proof.
  destruct v as [| | | | |l|l|d| |]; simpl; try reflexivity; try discriminate;
    [destruct l | destruct l | destruct d]; simpl;
    solve [reflexivity | discriminate].
Qed.

(** X13.  [do_protocol_violation] called without a message, or with one that
    is false in an [if] ([None], the empty string), sends
    [[ABORT, {}, "wamp.error.protocol_violation"]] with empty details, then
    requests the close. *)
Theorem do_protocol_violation_without_message
    (msg : pyval) (log : transport_log) :
  truthy msg = false ->
  do_protocol_violation msg log =
    (Return PNone,
     (log ++ [ScheduleMsg
                (Dumps (PTuple [PInt 3; PDict [];
                                PStr "wamp.error.protocol_violation"]));
              Close])%list).
Proof.
  intros Hmsg. unfold do_protocol_violation. rewrite Hmsg. run.
  rewrite <- app_assoc. reflexivity.
Qed.

(** X16.  A protocol object whose session was built by [__init__] announces,
    in its WELCOME, a session id between 1 and 2^53, provided [randint]
    draws within the bounds it is given. *)
Theorem handle_msg_welcome_id_in_range
    (randint : Z -> Z -> Z) (peer : option string)
    (agent_name_arg : option string)
    (open_handler : WAMPSession -> outcome pyval)
    (rpc_handler : WAMPRPCRequest -> outcome rpc_result)
    (subscribe_handler : WAMPSubscribeRequest -> outcome subscribe_result)
    (unsubscribe_handler : WAMPUnsubscribeRequest -> outcome unsubscribe_result)
    (deserialize : string -> outcome pyval)
    (message : string) (msg_type : pyval) (rest : list pyval)
    (log : transport_log) :
  (forall a b, a <= b -> a <= randint a b <= b) ->
  deserialize message = Return (PList (msg_type :: rest)) ->
  py_eq_int msg_type WAMPMsgType.HELLO = true ->
  exists id,
    1 <= id <= 2 ^ 53
    /\ snd (handle_msg (init_session randint peer) agent_name_arg open_handler
              rpc_handler subscribe_handler unsubscribe_handler deserialize
              message log)
       = (log ++ [ScheduleMsg
                    (Dumps (PTuple
                              [PInt 2; PInt id;
                               PDict [("roles", PDict [("broker", PDict []);
                                                       ("dealer", PDict [])]);
                                      ("agent",
                                       PStr (agent_name agent_name_arg))]]))])%list.
Proof.
  intros Hrand Hdec Hcode.
  exists (generate_global_id randint). split.
  - unfold generate_global_id. apply Hrand. lia.
  - rewrite (handle_msg_dispatch _ _ _ _ _ _ _ _ _ _ _ Hdec). cbv zeta.
    rewrite Hcode. unfold do_welcome. run.
    destruct (open_handler (init_session randint peer)); reflexivity.
Qed.

(** ** Beyond the claims: what every message keeps *)

(** Case analysis along the paths of a method run from a known log: split on
    the innermost test until none is left. *)
Ltac explore :=
  repeat match goal with
  | |- context [match ?x with _ => _ end] =>
      lazymatch x with
      | context [match _ with _ => _ end] => fail
      | _ => destruct x eqn:?; simpl
      end
  end.

Ltac unfold_methods :=
  unfold do_welcome, do_unauthorized, do_unimplemented,
    do_protocol_violation, recv_rpc_call, recv_subscribe, recv_unsubscribe.

Section Invariants.

Variable session : WAMPSession.
Variable agent_name_arg : option string.
Variable open_handler : WAMPSession -> outcome pyval.
Variable rpc_handler : WAMPRPCRequest -> outcome rpc_result.
Variable subscribe_handler : WAMPSubscribeRequest -> outcome subscribe_result.
Variable unsubscribe_handler :
  WAMPUnsubscribeRequest -> outcome unsubscribe_result.
Variable deserialize : string -> outcome pyval.

Local Notation handle :=
  (handle_msg session agent_name_arg open_handler rpc_handler
     subscribe_handler unsubscribe_handler deserialize).

#[local] Arguments py_eq_int : simpl never.

Lemma handle_msg_is_framed (message : string) : framed (handle message).
Proof. unfold handle_msg. unfold_methods. repeat framed_step. Qed.

(** What a run appended, read from a run on a fresh transport. *)
Lemma handle_msg_appended
    (message : string) (log evs : transport_log) (r : outcome pyval) :
  handle message log = (r, (log ++ evs)%list) ->
  evs = snd (handle message []).
Proof.
  rewrite (handle_msg_is_framed message log). intros H.
  injection H as _ H. symmetry. exact (app_inv_head _ _ _ H).
Qed.

Lemma handle_msg_fresh_sends (message : string) :
  (count_sends (snd (handle message [])) <= 1)%nat
  /\ (List.length (snd (handle message [])) <= 2)%nat.
Proof.
  unfold handle_msg. unfold_methods. run. explore.
  all: unfold count_sends; simpl; lia.
Qed.

(** X11.  Handling one incoming message sends at most one envelope, and makes
    at most two transport calls in all. *)
Theorem handle_msg_sends_at_most_one (message : string) (log : transport_log) :
  exists r evs,
    handle message log = (r, (log ++ evs)%list)
    /\ (count_sends evs <= 1)%nat
    /\ (List.length evs <= 2)%nat.
Proof.
  exists (fst (handle message [])), (snd (handle message [])).
  split; [apply handle_msg_is_framed | apply handle_msg_fresh_sends].
Qed.

Lemma handle_msg_dispatched_quiet
    (message : string) (msg_type : pyval) (rest : list pyval) :
  deserialize message = Return (PList (msg_type :: rest)) ->
  dispatched msg_type = true ->
  existsb violation_call (snd (handle message [])) = false.
Proof.
  intros Hdec Hcode.
  rewrite (handle_msg_dispatch _ _ _ _ _ _ _ _ _ _ _ Hdec). cbv zeta.
  unfold dispatched in Hcode.
  repeat (apply orb_true_iff in Hcode; destruct Hcode as [Hcode|Hcode]);
    assert (Hna : py_eq_int msg_type WAMPMsgType.ABORT = false)
      by (apply (py_eq_int_other _ _ _ Hcode); vm_compute; discriminate);
    pick_branch Hcode; rewrite ?orb_true_r; simpl orb; cbv iota;
    unfold_methods; run; explore;
    unfold is_abort; simpl; rewrite ?Hna; try reflexivity;
    try (rewrite Hcode in *; discriminate); try congruence.
Qed.

(** X10.  An ABORT envelope or a close request appears only on the unknown
    type path: if handling a message made either call, the message decoded to
    a non-empty list whose first element equals none of the dispatched
    codes. *)
Theorem handle_msg_violation_only_on_unknown_type
    (message : string) (log evs : transport_log) (r : outcome pyval) :
  handle message log = (r, (log ++ evs)%list) ->
  existsb violation_call evs = true ->
  exists msg_type rest,
    deserialize message = Return (PList (msg_type :: rest))
    /\ dispatched msg_type = false.
Proof.
  intros Hrun Hviol. rewrite (handle_msg_appended _ _ _ _ Hrun) in Hviol.
  destruct (deserialize message) as [v|e] eqn:Hdec.
  - destruct v as [| | | | |[|msg_type rest]| | | |];
      try (unfold handle_msg in Hviol; run; rewrite Hdec in Hviol;
           discriminate Hviol).
    destruct (dispatched msg_type) eqn:Hd; [|eauto].
    rewrite (handle_msg_dispatched_quiet _ _ _ Hdec Hd) in Hviol.
    discriminate.
  - unfold handle_msg in Hviol. run. rewrite Hdec in Hviol. discriminate.
Qed.

Lemma handle_msg_fresh_echo
    (message : string) (msg_type request_id : pyval) (rest : list pyval) :
  deserialize message = Return (PList (msg_type :: request_id :: rest)) ->
  py_eq_int msg_type WAMPMsgType.CALL
  || py_eq_int msg_type WAMPMsgType.SUBSCRIBE
  || py_eq_int msg_type WAMPMsgType.UNSUBSCRIBE = true ->
  forall text,
    In (ScheduleMsg text) (snd (handle message [])) ->
    correlation_field text = Some request_id.
Proof.
  intros Hdec Hcode.
  rewrite (handle_msg_dispatch _ _ _ _ _ _ _ _ _ _ _ Hdec). cbv zeta.
  repeat (apply orb_true_iff in Hcode; destruct Hcode as [Hcode|Hcode]);
    pick_branch Hcode; unfold_methods; run; explore;
    intros text Hin; simpl in Hin;
    repeat match goal with
    | H : _ \/ _ |- _ => destruct H as [H|H]
    | H : False |- _ => destruct H
    | H : ScheduleMsg _ = ScheduleMsg _ |- _ => injection H as <-
    end;
    reflexivity.
Qed.

(** X12.  Every envelope sent in answer to a CALL, SUBSCRIBE or UNSUBSCRIBE
    carries the request id exactly as received: as third field of an ERROR
    envelope, as second field of any other reply. *)
Theorem handle_msg_reply_echoes_request_id
    (message : string) (msg_type request_id : pyval) (rest : list pyval)
    (log evs : transport_log) (r : outcome pyval) (text : json_text) :
  deserialize message = Return (PList (msg_type :: request_id :: rest)) ->
  py_eq_int msg_type WAMPMsgType.CALL
  || py_eq_int msg_type WAMPMsgType.SUBSCRIBE
  || py_eq_int msg_type WAMPMsgType.UNSUBSCRIBE = true ->
  handle message log = (r, (log ++ evs)%list) ->
  In (ScheduleMsg text) evs ->
  correlation_field text = Some request_id.
Proof.
  intros Hdec Hcode Hrun Hin.
  rewrite (handle_msg_appended _ _ _ _ Hrun) in Hin.
  exact (handle_msg_fresh_echo _ _ _ _ Hdec Hcode text Hin).
Qed.

End Invariants.

(** ** The second deployment, run *)

Lemma handle_msg_hello_welcomes_witness :
  Scenario.loads Scenario.hello_text
    = Return (PList [PInt 1; PStr "realm1"; PDict []])
  /\ Scenario.handle Scenario.hello_text []
     = (Return PNone,
        [ScheduleMsg
           (Dumps (PTuple
                     [PInt 2; PInt 4242;
                      PDict [("roles", PDict [("broker", PDict []);
                                              ("dealer", PDict [])]);
                             ("agent", PStr "aiohttp-server-wamp")]]))]).
Proof.
  split; [reflexivity|].
  apply (handle_msg_hello_welcomes Sample.session None Scenario.on_open
           Scenario.rpc Scenario.subscribe Scenario.unsubscribe Scenario.loads
           Scenario.hello_text (PInt 1) [PStr "realm1"; PDict []] []);
    reflexivity.
Defined.

Lemma handle_msg_publish_not_implemented_witness :
  Scenario.handle "[16, 3]" []
    = (Return PNone,
       [ScheduleMsg
          (Dumps (PTuple [PInt 8; PInt 3; PDict [];
                          PStr "wamp.error.not_implemented"]))])
  /\ Scenario.handle "[17, 4]" []
     = (Return PNone,
        [ScheduleMsg
           (Dumps (PTuple [PInt 8; PInt 4; PDict [];
                           PStr "wamp.error.not_implemented"]))]).
Proof.
  split.
  - apply (handle_msg_publish_not_implemented Sample.session None
             Scenario.on_open Scenario.rpc Scenario.subscribe
             Scenario.unsubscribe Scenario.loads
             "[16, 3]" (PInt 16) (PInt 3) [] []); reflexivity.
  - apply (handle_msg_publish_not_implemented Sample.session None
             Scenario.on_open Scenario.rpc Scenario.subscribe
             Scenario.unsubscribe Scenario.loads
             "[17, 4]" (PInt 17) (PInt 4) [] []); reflexivity.
Defined.

(** SUBSCRIBE with request id 3 and topic [topic.x], subscription 42. *)
Lemma handle_msg_subscribe_subscribed_witness :
  Scenario.loads (Scenario.subscribe_text "topic.x" "3")
    = Return (PList [PInt 32; PInt 3; PDict []; PStr "topic.x"])
  /\ Scenario.handle (Scenario.subscribe_text "topic.x" "3") []
     = (Return PNone,
        [ScheduleMsg (Dumps (PTuple [PInt 33; PInt 3; PInt 42]))]).
Proof.
  split; [reflexivity|].
  apply (handle_msg_subscribe_subscribed Sample.session None Scenario.on_open
           Scenario.rpc Scenario.subscribe Scenario.unsubscribe Scenario.loads
           (Scenario.subscribe_text "topic.x" "3")
           (PInt 32) (PInt 3) (PDict []) (PStr "topic.x") (PInt 42) [] []);
    reflexivity.
Defined.

Lemma handle_msg_subscribe_typed_error_witness :
  Scenario.handle (Scenario.subscribe_text "topic.secret" "4") []
    = (Return PNone,
       [ScheduleMsg
          (Dumps (PTuple [PInt 8; PInt 32; PInt 4;
                          PDict [("reason", PStr "private")];
                          PStr "wamp.error.not_authorized"]))]).
Proof.
  apply (handle_msg_subscribe_typed_error Sample.session None Scenario.on_open
           Scenario.rpc Scenario.subscribe Scenario.unsubscribe Scenario.loads
           (Scenario.subscribe_text "topic.secret" "4")
           (PInt 32) (PInt 4) (PDict []) (PStr "topic.secret") []
           {| sub_err_uri := PStr "wamp.error.not_authorized";
              sub_err_details := PDict [("reason", PStr "private")] |} []);
    reflexivity.
Defined.

Lemma handle_msg_subscribe_fault_witness :
  Scenario.handle (Scenario.subscribe_text "topic.boom" "5") []
    = (Return PNone,
       [ScheduleMsg
          (Dumps (PTuple [PInt 8; PInt 32; PInt 5; PDict [];
                          PStr "wamp.error.exception_during_rpc_call";
                          PStr "registry down"]))])
  /\ Scenario.handle (Scenario.subscribe_text "topic.odd" "6") []
     = (Return PNone,
        [ScheduleMsg
           (Dumps (PTuple
                     [PInt 8; PInt 32; PInt 6; PDict [];
                      PStr "wamp.error.exception_during_rpc_call";
                      PStr "'NoneType' object has no attribute 'subscription'"]))]).
Proof.
  split.
  - apply (handle_msg_subscribe_fault Sample.session None Scenario.on_open
             Scenario.rpc Scenario.subscribe Scenario.unsubscribe
             Scenario.loads (Scenario.subscribe_text "topic.boom" "5")
             (PInt 32) (PInt 5) (PDict []) (PStr "topic.boom") []
             "registry down" []);
      [reflexivity | reflexivity
      | left; exists "RuntimeError"; reflexivity | reflexivity].
  - apply (handle_msg_subscribe_fault Sample.session None Scenario.on_open
             Scenario.rpc Scenario.subscribe Scenario.unsubscribe
             Scenario.loads (Scenario.subscribe_text "topic.odd" "6")
             (PInt 32) (PInt 6) (PDict []) (PStr "topic.odd") []
             "'NoneType' object has no attribute 'subscription'" []);
      [reflexivity | reflexivity
      | right; exists "NoneType"; split; reflexivity | reflexivity].
Defined.

Lemma handle_msg_unsubscribe_unsubscribed_witness :
  Scenario.handle "[34, 9, 7]" []
    = (Return PNone, [ScheduleMsg (Dumps (PTuple [PInt 35; PInt 9]))]).
Proof.
  apply (handle_msg_unsubscribe_unsubscribed Sample.session None
           Scenario.on_open Scenario.rpc Scenario.subscribe
           Scenario.unsubscribe Scenario.loads
           "[34, 9, 7]" (PInt 34) (PInt 9) (PInt 7) (PBool true) [] []);
    reflexivity.
Defined.

(** The error response of [math.sqrt] has details; the reply has none. *)
Lemma handle_msg_call_typed_error_witness :
  Scenario.handle (Scenario.call_text "math.sqrt" "10") []
    = (Return PNone,
       [ScheduleMsg
          (Dumps (PTuple [PInt 8; PInt 48; PInt 10; PDict [];
                          PStr "wamp.error.invalid_argument";
                          PList [PInt (-1)]; PDict []]))]).
Proof.
  apply (handle_msg_call_typed_error Sample.session None Scenario.on_open
           Scenario.rpc Scenario.subscribe Scenario.unsubscribe Scenario.loads
           (Scenario.call_text "math.sqrt" "10")
           (PInt 48) (PInt 10) (PStr "math.sqrt") []
           {| rpc_err_uri := PStr "wamp.error.invalid_argument";
              rpc_err_details := PDict [("hint", PStr "negative")];
              rpc_err_args := PList [PInt (-1)];
              rpc_err_kwargs := PDict [] |} []);
    reflexivity.
Defined.

Lemma handle_msg_call_base_exception_propagates_witness :
  Scenario.handle (Scenario.call_text "sys.exit" "12") []
    = (Throw (BaseExc "SystemExit" "0"), []).
Proof.
  apply (handle_msg_call_base_exception_propagates Sample.session None
           Scenario.on_open Scenario.rpc Scenario.subscribe
           Scenario.unsubscribe Scenario.loads
           (Scenario.call_text "sys.exit" "12")
           (PInt 48) (PInt 12) (PStr "sys.exit") [] "SystemExit" "0" []);
    reflexivity.
Defined.

Lemma handle_msg_call_unencodable_result_raises_witness :
  Scenario.handle (Scenario.call_text "clock.now" "11") []
    = (Throw (Exc "TypeError"
                "Object of type datetime is not JSON serializable"),
       []).
Proof.
  apply (handle_msg_call_unencodable_result_raises Sample.session None
           Scenario.on_open Scenario.rpc Scenario.subscribe
           Scenario.unsubscribe Scenario.loads
           (Scenario.call_text "clock.now" "11")
           (PInt 48) (PInt 11) (PStr "clock.now") [] (PObject "datetime") []);
    reflexivity.
Defined.

Lemma handle_msg_call_ignores_trailing_fields_witness :
  Scenario.handle (Scenario.full_call_text "") []
    = Scenario.handle (Scenario.full_call_text ", 99") [].
Proof.
  apply (handle_msg_call_ignores_trailing_fields Sample.session None
           Scenario.on_open Scenario.rpc Scenario.subscribe
           Scenario.unsubscribe Scenario.loads
           (Scenario.full_call_text "") (Scenario.full_call_text ", 99")
           (PInt 48) (PInt 7) (PStr "math.add") (PList [PInt 2; PInt 3])
           (PDict []) [] [PInt 99] []);
    reflexivity.
Defined.

Lemma handle_msg_short_request_index_error_witness :
  Scenario.handle "[48, 7]" []
    = (Throw (Exc "IndexError" "list index out of range"), [])
  /\ Scenario.handle "[32, 3, {}]" []
     = (Throw (Exc "IndexError" "list index out of range"), [])
  /\ Scenario.handle "[34, 9]" []
     = (Throw (Exc "IndexError" "list index out of range"), []).
Proof.
  split; [|split].
  - apply (handle_msg_short_request_index_error Sample.session None
             Scenario.on_open Scenario.rpc Scenario.subscribe
             Scenario.unsubscribe Scenario.loads
             "[48, 7]" (PInt 48) [PInt 7] []);
      [reflexivity | left; split; [reflexivity | simpl; lia]].
  - apply (handle_msg_short_request_index_error Sample.session None
             Scenario.on_open Scenario.rpc Scenario.subscribe
             Scenario.unsubscribe Scenario.loads
             "[32, 3, {}]" (PInt 32) [PInt 3; PDict []] []);
      [reflexivity | right; left; split; [reflexivity | simpl; lia]].
  - apply (handle_msg_short_request_index_error Sample.session None
             Scenario.on_open Scenario.rpc Scenario.subscribe
             Scenario.unsubscribe Scenario.loads
             "[34, 9]" (PInt 34) [PInt 9] []);
      [reflexivity | right; right; split; [reflexivity | simpl; lia]].
Defined.

Lemma do_protocol_violation_without_message_witness :
  truthy PNone = false
  /\ do_protocol_violation PNone []
     = (Return PNone,
        [ScheduleMsg
           (Dumps (PTuple [PInt 3; PDict [];
                           PStr "wamp.error.protocol_violation"]));
         Close])
  /\ snd (do_protocol_violation (PStr "") [])
     = [ScheduleMsg
          (Dumps (PTuple [PInt 3; PDict [];
                          PStr "wamp.error.protocol_violation"]));
        Close].
Proof.
  split; [reflexivity|]. split.
  - apply (do_protocol_violation_without_message PNone []). reflexivity.
  - rewrite (do_protocol_violation_without_message (PStr "") []);
      reflexivity.
Defined.

(** A generator that always draws its upper bound: the id is 2^53. *)
Lemma handle_msg_welcome_id_in_range_witness :
  exists id,
    1 <= id <= 2 ^ 53
    /\ snd (handle_msg (init_session (fun _ b => b) None) None
              Scenario.on_open Scenario.rpc Scenario.subscribe
              Scenario.unsubscribe Scenario.loads Scenario.hello_text [])
       = [ScheduleMsg
            (Dumps (PTuple
                      [PInt 2; PInt id;
                       PDict [("roles", PDict [("broker", PDict []);
                                               ("dealer", PDict [])]);
                              ("agent", PStr "aiohttp-server-wamp")]]))].
Proof.
  apply (handle_msg_welcome_id_in_range (fun _ b => b) None None
           Scenario.on_open Scenario.rpc Scenario.subscribe
           Scenario.unsubscribe Scenario.loads Scenario.hello_text
           (PInt 1) [PStr "realm1"; PDict []] []);
    [intros a b Hab; lia | reflexivity | reflexivity].
Defined.

(** The ABORT and the close after [[99, 1]] point back at the type 99. *)
Lemma handle_msg_violation_only_on_unknown_type_witness :
  exists msg_type rest,
    Scenario.loads "[99, 1]" = Return (PList (msg_type :: rest))
    /\ dispatched msg_type = false.
Proof.
  apply (handle_msg_violation_only_on_unknown_type Sample.session None
           Scenario.on_open Scenario.rpc Scenario.subscribe
           Scenario.unsubscribe Scenario.loads "[99, 1]" []
           [ScheduleMsg (Dumps (abort_envelope "Unknown WAMP message type."));
            Close]
           (Return PNone));
    reflexivity.
Defined.

(** The error reply to request 10 carries 10 as its third field. *)
Lemma handle_msg_reply_echoes_request_id_witness :
  correlation_field
    (Dumps (PTuple [PInt 8; PInt 48; PInt 10; PDict [];
                    PStr "wamp.error.invalid_argument";
                    PList [PInt (-1)]; PDict []]))
  = Some (PInt 10).
Proof.
  apply (handle_msg_reply_echoes_request_id Sample.session None
           Scenario.on_open Scenario.rpc Scenario.subscribe
           Scenario.unsubscribe Scenario.loads
           (Scenario.call_text "math.sqrt" "10")
           (PInt 48) (PInt 10) [PStr "math.sqrt"] []
           [ScheduleMsg
              (Dumps (PTuple [PInt 8; PInt 48; PInt 10; PDict [];
                              PStr "wamp.error.invalid_argument";
                              PList [PInt (-1)]; PDict []]))]
           (Return PNone));
    [reflexivity | reflexivity | reflexivity | left; reflexivity].
Defined.
